(** * Shallow embedding of data_validation/validate_reagent_resources.py

    The reagent registry validator: blank-cell check, value-set injection
    and schema validation, duplicate rows, Agree/Disagree parsing and the
    row invariants, the per (target, conjugate) supporting-material
    cross-validation and the image checks.

    Modelling choices.
    - Python strings are [string] (8-bit characters); [str.strip] strips the
      ASCII characters for which [str.isspace] holds.
    - A pandas frame read with [dtype=str, keep_default_na=False] is a
      header and a list of rows of strings; the frame index is the row
      position (a [RangeIndex]).
    - stderr is a list of diagnostics, one constructor per [print] of the
      source; a raised Python exception is the [Exc] outcome.
    - The file system is a flat list of (absolute path, file) entries; the
      supporting-material root is an absolute, normalised directory path, so
      [os.path.abspath] is the identity on the paths built from it.
    - [md5sum] of a file is the file's stored digest. *)

From stdpp Require Import base list gmap strings.
From Stdlib Require Import ZArith Ascii String.

Open Scope Z_scope.
Open Scope string_scope.

(* ------------------------------------------------------------------ *)
(** ** Python string helpers *)

Module Py.

(** [str.isspace] on one (ASCII) character: \t \n \v \f \r, \x1c-\x1f, space.
    Strings are ASCII here, so the Unicode spaces that [str.strip] also
    removes (U+0085, U+00A0, ...) do not occur. *)
Definition is_space (c : ascii) : bool :=
  let n := nat_of_ascii c in
  ((9 <=? n) && (n <=? 13))%nat || ((28 <=? n) && (n <=? 32))%nat.

Fixpoint lstrip (s : string) : string :=
  match s with
  | EmptyString => EmptyString
  | String c s' => if is_space c then lstrip s' else s
  end.

Definition rev_str (s : string) : string := string_of_list_ascii (rev (list_ascii_of_string s)).

(** [str.strip()] *)
Definition strip (s : string) : string := rev_str (lstrip (rev_str (lstrip s))).

(** [s.split(sep)] for a one-character separator: "a;;b" gives three
    pieces, the middle one empty; the empty string gives one empty piece. *)
Fixpoint split_aux (sep : ascii) (s : string) (cur : string) : list string :=
  match s with
  | EmptyString => [cur]
  | String c s' =>
      if Ascii.eqb c sep then cur :: split_aux sep s' EmptyString
      else split_aux sep s' (cur ++ String c EmptyString)
  end.

Definition split (sep : ascii) (s : string) : list string := split_aux sep s EmptyString.

(** [p in s] for strings: [p] is a substring of [s]. *)
Fixpoint contains (p s : string) : bool :=
  String.prefix p s ||
  match s with
  | EmptyString => false
  | String _ s' => contains p s'
  end.

(** [s.endswith(suf)] *)
Definition endswith (suf s : string) : bool :=
  String.prefix (rev_str suf) (rev_str s).

(** [s.replace(old, new)]: non-overlapping, left to right. *)
Fixpoint replace_fuel (fuel : nat) (old new s : string) : string :=
  match fuel with
  | O => s
  | S fuel' =>
      match s with
      | EmptyString => EmptyString
      | String c s' =>
          if String.prefix old s
          then new ++ replace_fuel fuel' old new (substring (String.length old) (String.length s) s)
          else String c (replace_fuel fuel' old new s')
      end
  end.

Fixpoint interleave (new s : string) : string :=
  match s with
  | EmptyString => EmptyString
  | String c s' => String c (new ++ interleave new s')
  end.

Definition replace (s old new : string) : string :=
  match old with
  | EmptyString => new ++ interleave new s
  | _ => replace_fuel (String.length s) old new s
  end.

(** [l.index(x)] for a list of strings; [None] is the [ValueError]. *)
Fixpoint index_of (x : string) (l : list string) : option nat :=
  match l with
  | [] => None
  | y :: l' => if String.eqb x y then Some O else option_map S (index_of x l')
  end.

(** [l[1:-1]] *)
Definition slice_1_m1 {A} (l : list A) : list A := removelast (tl l).

(** [pathlib.PurePosixPath(p).name]: the last component once empty and "."
    components are dropped, the empty string when there is none. *)
Definition path_name (p : string) : string :=
  default EmptyString
    (last (List.filter (fun c => negb (String.eqb c EmptyString) && negb (String.eqb c ".")) (split "/" p))).

(** [os.path.join(a, b)] and [pathlib]'s [a / b]: an absolute right operand
    replaces the left one. *)
Definition path_join (a b : string) : string :=
  if String.prefix "/" b then b else a ++ "/" ++ b.

End Py.

(** From here on [++] is list concatenation; strings are joined with
    [String.append]. *)
Open Scope list_scope.

(* ------------------------------------------------------------------ *)
(** ** Frames, files, diagnostics and the output monad *)

(** A frame read by [pd.read_csv(..., dtype=str, keep_default_na=False)]. *)
Record frame := { fcols : list string; frows : list (list string) }.

Definition col_index (f : frame) (c : string) : option nat := Py.index_of c (fcols f).

Definition has_col (f : frame) (c : string) : bool :=
  match col_index f c with Some _ => true | None => false end.

(** [row[c]] for a column known to be present. *)
Definition get (f : frame) (c : string) (row : list string) : string :=
  match col_index f c with Some i => nth i row EmptyString | None => EmptyString end.

(** Python exceptions that the source can raise. *)
Inductive exn :=
  | KeyError (key : string)
  | ValueError (msg : string)
  | TypeError (msg : string)
  | IndexError (msg : string)
  | NameError (name : string).

(** One constructor per [print(..., file=sys.stderr)] of the source. *)
Inductive diag :=
  | DEmptyCells (cells : list (string * list Z))
  | DValueNotIn (col : string) (rows : list Z)
  | DMultiValueNotIn (col : string) (rows : list Z)
  | DDuplicates (groups : list (list Z))
  | DContributorMissing (rows : list Z)
  | DTooManyOrcids (rows : list Z)
  | DDocMissing (path : string)
  | DDocException (path : string) (e : exn)
  | DDocMismatch (path : string)
  | DImageUnreferenced (caption fname : string) (row : Z) (path : string)
  | DSuperfluousMd (paths : list string)
  | DImageCountMismatch (rows : list Z)
  | DImageMissing (entries : list (Z * string))
  | DMd5Mismatch (entries : list (Z * string))
  | DSuperfluousImages (paths : list string).

Inductive res (A : Type) := Ok (a : A) | Exc (e : exn).
Arguments Ok {A} a.
Arguments Exc {A} e.

(** A computation writes diagnostics to stderr and returns or raises. *)
Definition M (A : Type) : Type := (list diag * res A)%type.

Global Instance M_ret : MRet M := fun A a => ([], Ok a).
Global Instance M_bind : MBind M := fun A B f m =>
  match m with
  | (l, Ok a) => let '(l', r) := f a in (l ++ l', r)
  | (l, Exc e) => (l, Exc e)
  end.

Definition emit (d : diag) : M unit := ([d], Ok tt).
Definition raise {A} (e : exn) : M A := ([], Exc e).

(** [try: m except Exception as e: h e] *)
Definition try_except {A} (m : M A) (h : exn -> M A) : M A :=
  match m with
  | (l, Exc e) => let '(l', r) := h e in (l ++ l', r)
  | _ => m
  end.

Definition when (b : bool) (d : diag) : M unit := if b then emit d else mret tt.

(** Fail with [KeyError] unless every listed column is present. *)
Fixpoint require_cols (f : frame) (cs : list string) : M unit :=
  match cs with
  | [] => mret tt
  | c :: cs' => if has_col f c then require_cols f cs' else raise (KeyError c)
  end.

(** Files: text content (for the markdown documents) and the md5 digest. *)
Record file := { fcontent : string; fdigest : string }.

Definition fs_lookup (fs : list (string * file)) (p : string) : option file :=
  match List.find (fun e => String.eqb e.1 p) fs with
  | Some e => Some e.2
  | None => None
  end.

Definition is_file (fs : list (string * file)) (p : string) : bool :=
  match fs_lookup fs p with Some _ => true | None => false end.

(** Positions (zero-based frame index) of the elements satisfying [p]. *)
Fixpoint indexes_from {A} (p : A -> bool) (i : Z) (l : list A) : list Z :=
  match l with
  | [] => []
  | x :: l' => if p x then i :: indexes_from p (i + 1) l' else indexes_from p (i + 1) l'
  end.

Definition indexes {A} (p : A -> bool) (l : list A) : list Z := indexes_from p 0 l.

Definition mem_str (x : string) (l : list string) : bool := existsb (String.eqb x) l.

(* ------------------------------------------------------------------ *)
(** ** Configuration and the schema validator *)

(** A value of the validation configuration dict: a column -> allowed
    values dict, or some other JSON value. *)
Inductive cfgval := CfgDict (d : gmap string (list string)) | CfgOther.

Abbreviation config := (gmap string cfgval).

(** Lines 87-109: add the ORCIDs and vendor names to the configuration. *)
Definition inject_config (cfg : config) (orcids vendor_names : list string) : M config :=
  cfg1 ← match cfg !! "column_is_in" with
         | Some (CfgDict d) =>
             mret (<["column_is_in" := CfgDict (<["Vendor" := vendor_names]>
                                               (<["Contributor" := orcids]> d))]> cfg)
         | Some CfgOther => raise (TypeError "item assignment")
         | None =>
             let cfg' := <["column_is_in" := CfgDict {["Contributor" := orcids]}]> cfg in
             mret (<["column_is_in" := CfgDict {["Vendor" := vendor_names]}]> cfg')
         end;
  match cfg1 !! "multi_value_column_is_in" with
  | Some (CfgDict d) =>
      mret (<["multi_value_column_is_in" := CfgDict (<["Disagree" := orcids]>
                                                     (<["Agree" := orcids]> d))]> cfg1)
  | Some CfgOther => raise (TypeError "item assignment")
  | None =>
      mret (<["multi_value_column_is_in" :=
                CfgDict (<["Disagree" := orcids]> (<["Agree" := orcids]> ∅))]> cfg1)
  end.

Definition dict_of (cfg : config) (k : string) : gmap string (list string) :=
  match cfg !! k with Some (CfgDict d) => d | _ => ∅ end.

Definition shift_index : Z := 2.

(** Modelled from the spec: [validate_df] of utilities.py, which is not in
    src/. Section 4.1 of the spec: [column_is_in] restricts a column to a
    set of values, [multi_value_column_is_in] restricts every
    semicolon-delimited token of a column; all violations are collected and
    printed with the frame index + 2; the result is 0 on success and 1
    otherwise. The other rule kinds the spec mentions (regex per column,
    required column sets, uniqueness) are left to the collaborator and not
    modelled: no other key of the configuration is checked here, so a
    status 0 of this model does not say that the real schema stage passes;
    the pass case of [validate_reagent_resources] takes the schema stage's
    verdict as a hypothesis. *)
Definition column_is_in_rows (f : frame) (c : string) (allowed : list string) : list Z :=
  map (Z.add shift_index) (indexes (fun row => negb (mem_str (get f c row) allowed)) (frows f)).

Definition multi_value_rows (f : frame) (c : string) (allowed : list string) : list Z :=
  map (Z.add shift_index)
    (indexes (fun row => negb (forallb (fun t => mem_str (Py.strip t) allowed)
                                        (Py.split ";" (get f c row)))) (frows f)).

Definition validate_df (f : frame) (cfg : config) : M Z :=
  let v1 := List.filter (fun p => bool_decide (p.2 <> []))
              (map (fun '(c, a) => (c, column_is_in_rows f c a))
                 (List.filter (fun p => has_col f p.1) (map_to_list (dict_of cfg "column_is_in")))) in
  let v2 := List.filter (fun p => bool_decide (p.2 <> []))
              (map (fun '(c, a) => (c, multi_value_rows f c a))
                 (List.filter (fun p => has_col f p.1)
                    (map_to_list (dict_of cfg "multi_value_column_is_in")))) in
  _ ← ((map (fun p => DValueNotIn p.1 p.2) v1 ++ map (fun p => DMultiValueNotIn p.1 p.2) v2),
        Ok tt);
  mret (if bool_decide (v1 = [] /\ v2 = []) then 0 else 1).

(* ------------------------------------------------------------------ *)
(** ** Row checks of [validate_reagent_resources] *)

Definition MAX_ORCID_ENTRIES : nat := 5.

(** Lines 65-70: for every column, the shifted indexes of its blank cells. *)
Definition empty_cells (f : frame) : list (string * list Z) :=
  List.filter (fun p => bool_decide (p.2 <> []))
    (imap (fun j c =>
             (c, map (Z.add shift_index)
                   (indexes (fun row => String.eqb (Py.strip (nth j row EmptyString)) EmptyString)
                      (frows f))))
          (fcols f)).

(** Lines 117-121: duplicate rows once Contributor, Agree and Disagree are
    dropped, grouped by the remaining values; [groupby] sorts the groups by
    key. *)
Definition contributor_cols : list string := ["Contributor"; "Agree"; "Disagree"].

Definition dup_key (f : frame) (row : list string) : list string :=
  map snd (List.filter (fun p => negb (mem_str p.1 contributor_cols)) (zip (fcols f) row)).

Fixpoint key_ltb (a b : list string) : bool :=
  match a, b with
  | [], [] => false
  | [], _ :: _ => true
  | _ :: _, [] => false
  | x :: a', y :: b' =>
      match String.compare x y with Lt => true | Gt => false | Eq => key_ltb a' b' end
  end.

(** Insert a key into a sorted key list, once. *)
Fixpoint insert_key (k : list string) (ks : list (list string)) : list (list string) :=
  match ks with
  | [] => [k]
  | k' :: ks' =>
      if bool_decide (k = k') then ks
      else if key_ltb k k' then k :: ks else k' :: insert_key k ks'
  end.

Definition keyed_rows (f : frame) : list (list string * Z) :=
  zip (map (dup_key f) (frows f)) (indexes (fun _ => true) (frows f)).

(** [raw_df.duplicated(keep=False)] *)
Definition all_duplicates (f : frame) : list (list string * Z) :=
  let kr := keyed_rows f in
  List.filter (fun p => bool_decide (2 <= List.length (List.filter (fun q => bool_decide (q.1 = p.1)) kr))%nat) kr.

Definition duplicated_indexes (f : frame) : list (list Z) :=
  let d := all_duplicates f in
  map (fun k => map snd (List.filter (fun p => bool_decide (p.1 = k)) d))
      (foldr insert_key [] (map fst d)).

(** Lines 137-142: [v.strip()] of the ';' pieces, dropping "" and "NA". *)
Definition parse_ids (x : string) : list string :=
  List.filter (fun v => negb (mem_str v [EmptyString; "NA"])) (map Py.strip (Py.split ";" x)).

Definition agree (f : frame) (row : list string) : list string := parse_ids (get f "Agree" row).
Definition disagree (f : frame) (row : list string) : list string := parse_ids (get f "Disagree" row).

(** Lines 143-147 *)
Definition contributor_missing (f : frame) (row : list string) : bool :=
  negb (mem_str (get f "Contributor" row) (agree f row ++ disagree f row)).

(** Lines 157-163: the lengths of the parsed lists. *)
Definition too_many_orcids (f : frame) (row : list string) : bool :=
  (MAX_ORCID_ENTRIES <? List.length (agree f row))%nat || (MAX_ORCID_ENTRIES <? List.length (disagree f row))%nat.

(** Lines 174-178: [bool(set(agree).intersection(disagree))]. *)
Definition agree_disagree_overlap (f : frame) (row : list string) : bool :=
  existsb (fun v => mem_str v (disagree f row)) (agree f row).

Definition shifted (l : list Z) : list Z := map (Z.add shift_index) l.

(** Line 194: the image columns as lists. *)
Definition parse_list (x : string) : list string :=
  if String.eqb (Py.strip x) "NA" then [] else map Py.strip (Py.split ";" x).

Definition image_files (f : frame) (row : list string) : list string := parse_list (get f "Image Files" row).
Definition captions (f : frame) (row : list string) : list string := parse_list (get f "Captions" row).
Definition md5s (f : frame) (row : list string) : list string := parse_list (get f "MD5" row).

Definition image_cols : list string := ["Image Files"; "Captions"; "MD5"].
Definition target_col : string := "Target Name / Protein Biomarker".
Definition conjugate_col : string := "Conjugate".

(** Lines 198-200: the distinct (target, conjugate) pairs in order of first
    appearance. *)
Fixpoint uniq {A} `{EqDecision A} (seen : list A) (l : list A) : list A :=
  match l with
  | [] => []
  | x :: l' => if decide (x ∈ seen) then uniq seen l' else x :: uniq (x :: seen) l'
  end.

Definition drop_duplicates {A} `{EqDecision A} (l : list A) : list A := uniq [] l.

Definition target_conjugates (f : frame) : list (string * string) :=
  drop_duplicates (map (fun row => (get f target_col row, get f conjugate_col row)) (frows f)).

(* ------------------------------------------------------------------ *)
(** ** Configuration tables of the supporting-material documents *)

(** A cell of a frame after the Agree/Disagree cells became frozensets. *)
Inductive cell := CStr (s : string) | CSet (s : gset string).

Global Instance cell_eq_dec : EqDecision cell.
Proof. solve_decision. Defined.

(** A frame of cells; [None] is a missing value (None or NaN). *)
Record table := { tcols : list string; trows : list (list (option cell)) }.

(** [re.findall(r"\[\d{4}-\d{4}-\d{4}-\d{3}[\dX]\]", x)] with [s[1:-1]]
    applied to every match. *)
Definition is_digit (c : ascii) : bool :=
  let n := nat_of_ascii c in ((48 <=? n) && (n <=? 57))%nat.

Definition orcid_shape : list (ascii -> bool) :=
  let d := is_digit in
  let dash := fun c => Ascii.eqb c "-" in
  [fun c => Ascii.eqb c "["; d; d; d; d; dash; d; d; d; d; dash; d; d; d; d; dash; d; d; d;
   fun c => is_digit c || Ascii.eqb c "X"; fun c => Ascii.eqb c "]"].

Fixpoint match_shape (sh : list (ascii -> bool)) (s : list ascii) : bool :=
  match sh, s with
  | [], _ => true
  | p :: sh', c :: s' => p c && match_shape sh' s'
  | _ :: _, [] => false
  end.

Fixpoint findall_fuel (fuel : nat) (s : list ascii) : list string :=
  match fuel with
  | O => []
  | S fuel' =>
      match s with
      | [] => []
      | _ :: s' =>
          if match_shape orcid_shape s
          then string_of_list_ascii (take 19 (drop 1 s)) :: findall_fuel fuel' (drop 21 s)
          else findall_fuel fuel' s'
      end
  end.

Definition findall_orcids (x : string) : list string :=
  let s := list_ascii_of_string x in findall_fuel (List.length s) s.

(** [[f x | x <- l]] in the monad, first exception wins. *)
Fixpoint mapM {A B} (f : A -> M B) (l : list A) : M (list B) :=
  match l with
  | [] => mret []
  | x :: l' => y ← f x; ys ← mapM f l'; mret (y :: ys)
  end.

Definition nl : ascii := Ascii.ascii_of_nat 10.

(** Lines 428-443: the lines of the document, the header row and the table
    rows between "# Configurations" and "# Publications". *)
Definition doc_lines (content : string) : list string :=
  List.filter (fun c => negb (String.eqb c EmptyString)) (map Py.strip (Py.split nl content)).

(** Lines 446-448: [pd.DataFrame(data=table_content, columns=columns)]:
    shorter rows are padded with None, and the widest row must have as many
    cells as there are columns. *)
Definition make_frame (columns : list string) (data : list (list string)) : M table :=
  match data with
  | [] => mret {| tcols := columns; trows := [] |}
  | _ =>
      let width := foldr Nat.max O (map List.length data) in
      if bool_decide (width = List.length columns)
      then mret {| tcols := columns;
                   trows := map (fun r => map (fun j => option_map CStr (nth_error r j))
                                              (seq 0 width)) data |}
      else raise (ValueError "columns passed")
  end.

(** [.drop(["Notes"], axis=1)] *)
Definition drop_col (c : string) (t : table) : M table :=
  if mem_str c (tcols t)
  then mret {| tcols := List.filter (fun x => negb (String.eqb x c)) (tcols t);
               trows := map (fun r => map snd (List.filter (fun p => negb (String.eqb p.1 c))
                                                      (zip (tcols t) r))) (trows t) |}
  else raise (KeyError c).

(** [t[c] = t[c].apply(g)] *)
Definition apply_col (c : string) (g : option cell -> M (option cell)) (t : table) : M table :=
  match Py.index_of c (tcols t) with
  | None => raise (KeyError c)
  | Some j =>
      rows ← mapM (fun r => v ← g (mjoin (r !! j)); mret (<[j := v]> r)) (trows t);
      mret {| tcols := tcols t; trows := rows |}
  end.

Definition orcid_set_cell (v : option cell) : M (option cell) :=
  match v with
  | Some (CStr x) => mret (Some (CSet (list_to_set (findall_orcids x))))
  | _ => raise (TypeError "expected string")
  end.

Definition contributor_cell (v : option cell) : M (option cell) :=
  match v with
  | Some (CStr x) =>
      match findall_orcids x with
      | o :: _ => mret (Some (CStr o))
      | [] => raise (IndexError "list index out of range")
      end
  | _ => raise (TypeError "expected string")
  end.

Definition index_or_raise (x : string) (l : list string) : M nat :=
  match Py.index_of x l with Some i => mret i | None => raise (ValueError x) end.

(** Lines 428-472: the configurations table of a supporting document. *)
Definition parse_doc (content : string) : M table :=
  let lines := doc_lines content in
  s ← index_or_raise "# Configurations" lines;
  let start := S s in
  e ← index_or_raise "# Publications" lines;
  header ← match lines !! start with
           | Some h => mret h
           | None => raise (IndexError "list index out of range")
           end;
  let columns := List.filter (fun c => negb (String.eqb c EmptyString)) (map Py.strip (Py.split "|" header)) in
  let data := map (fun r => Py.slice_1_m1 (map Py.strip (Py.split "|" r)))
                  (take (e - (start + 2)) (drop (start + 2) lines)) in
  t ← make_frame columns data;
  t ← drop_col "Notes" t;
  t ← apply_col "Agree" orcid_set_cell t;
  t ← apply_col "Disagree" orcid_set_cell t;
  apply_col "Contributor" contributor_cell t.

(** Lines 400-411 and 478-480: the rows of the (target, conjugate) group
    that list the ORCID, Agree/Disagree as frozensets, image columns
    dropped. *)
Definition csv_table (f : frame) (tc_rows : list (Z * list string)) (orcid : string) : table :=
  let cols := List.filter (fun c => negb (mem_str c image_cols)) (fcols f) in
  {| tcols := cols;
     trows := map (fun '(_, row) =>
                     map (fun c => Some (if String.eqb c "Agree" then CSet (list_to_set (agree f row))
                                         else if String.eqb c "Disagree" then CSet (list_to_set (disagree f row))
                                         else CStr (get f c row))) cols)
                 (List.filter (fun '(_, row) => mem_str orcid (agree f row) || mem_str orcid (disagree f row))
                    tc_rows) |}.

(** [pd.concat([s, c])] aligns both tables on the union of their columns. *)
Definition union_cols (s c : table) : list string :=
  tcols s ++ List.filter (fun x => negb (mem_str x (tcols s))) (tcols c).

(** The value of column [x] in row [r] of [t]; NaN when [t] has no such column. *)
Definition cell_at (t : table) (r : list (option cell)) (x : string) : option cell :=
  match Py.index_of x (tcols t) with Some j => mjoin (r !! j) | None => None end.

Definition align (cols : list string) (t : table) (r : list (option cell)) : list (option cell) :=
  map (cell_at t r) cols.

(** Lines 483-490: the tables differ unless they have the same length and
    [pd.concat([s, c]).drop_duplicates()] is as long as [s]. *)
Definition tables_differ (s c : table) : bool :=
  let u := union_cols s c in
  negb (Nat.eqb (List.length (trows s)) (List.length (trows c))) ||
  negb (Nat.eqb (List.length (drop_duplicates (map (align u s) (trows s) ++ map (align u c) (trows c))))
                (List.length (trows s))).

(** Lines 239-246 *)
Definition replace_char_list (input_str : string) (change_chars_list : list string)
    (replacement_char : string) : string :=
  fold_left (fun s c => if Py.contains c s then Py.replace s c replacement_char else s)
    change_chars_list input_str.

Definition invalid_chars : list string :=
  [" "; String (Ascii.ascii_of_nat 9) EmptyString; "/"; "\"; "{"; "}"; "["; "]"; "("; ")";
   "<"; ">"; ":"; "&"].

Fixpoint foldM {A B} (g : A -> B -> M A) (a : A) (l : list B) : M A :=
  match l with
  | [] => mret a
  | x :: l' => a' ← g a x; foldM g a' l'
  end.

(* ------------------------------------------------------------------ *)
(** ** [validate_supporting_material] *)

(** The loop variables of lines 363-399: [status],
    [image_file_name_caption_index], [file_names] and the last
    [md_file_path] assigned. *)
Record sm_state := {
  st_status : Z;
  st_images : list (string * string * Z);
  st_files : list string;
  st_last : option string }.

Definition set_status (st : sm_state) : sm_state :=
  {| st_status := 1; st_images := st_images st; st_files := st_files st; st_last := st_last st |}.

(** Lines 365-368: the rows of the group, with their frame index. *)
Definition group_rows (f : frame) (t c : string) : list (Z * list string) :=
  List.filter (fun p => String.eqb (get f target_col p.2) t && String.eqb (get f conjugate_col p.2) c)
    (zip (indexes (fun _ => true) (frows f)) (frows f)).

(** Lines 370-372. A Python set has no fixed iteration order; the model
    iterates in order of first appearance. *)
Definition group_orcids (f : frame) (tc_rows : list (Z * list string)) : list string :=
  List.filter (fun o => negb (String.eqb o "NA"))
    (drop_duplicates (List.concat (map (fun p => agree f p.2) tc_rows) ++
                      List.concat (map (fun p => disagree f p.2) tc_rows))).

(** Lines 384-390 *)
Definition group_images (f : frame) (tc_rows : list (Z * list string)) : list (string * string * Z) :=
  List.concat (map (fun '(i, row) => map (fun '(fn, cap) => (fn, cap, i))
                                    (zip (image_files f row) (captions f row))) tc_rows).

(** Lines 420-425: keep the entries whose file name or caption the document
    does not mention. *)
Definition unmatched_images (content : string) (imgs : list (string * string * Z))
    : list (string * string * Z) :=
  List.filter (fun '(fn, cap, _) =>
            negb (Py.contains (Py.path_name fn) content) || negb (Py.contains cap content)) imgs.

Definition data_path (root t c : string) : string :=
  Py.path_join root (replace_char_list (String.append t (String.append "_" c)) invalid_chars "_").

Definition md_path (dp orcid : string) : string := Py.path_join dp (String.append orcid ".md").

(** One iteration of the loop of lines 393-498. Opening and reading an
    existing document does not fail in the model (a document that is not
    valid UTF-8 would raise at lines 414-415, before the image filter of
    line 420); only the parsing of its configurations table can raise. *)
Definition process_orcid (f : frame) (fs : list (string * file)) (dp : string)
    (tc_rows : list (Z * list string)) (st : sm_state) (orcid : string) : M sm_state :=
  let p := md_path dp orcid in
  let st := {| st_status := st_status st; st_images := st_images st;
               st_files := st_files st ++ [p]; st_last := Some p |} in
  match fs_lookup fs p with
  | None => _ ← emit (DDocMissing p); mret (set_status st)
  | Some fl =>
      let content := fcontent fl in
      let st := {| st_status := st_status st; st_images := unmatched_images content (st_images st);
                   st_files := st_files st; st_last := st_last st |} in
      try_except
        (t ← parse_doc content;
         if tables_differ t (csv_table f tc_rows orcid)
         then _ ← emit (DDocMismatch p); mret (set_status st)
         else mret st)
        (fun e => _ ← emit (DDocException p e); mret (set_status st))
  end.

(** Lines 393-498: the loop over the ORCIDs of the group. *)
Definition sm_loop (f : frame) (root : string) (fs : list (string * file)) (t c : string) : M sm_state :=
  let tc_rows := group_rows f t c in
  foldM (process_orcid f fs (data_path root t c) tc_rows)
        {| st_status := 0; st_images := group_images f tc_rows; st_files := []; st_last := None |}
        (group_orcids f tc_rows).

Definition validate_supporting_material (f : frame) (tc : string * string) (root : string)
    (fs : list (string * file)) : M (list string * Z) :=
  let '(t, c) := tc in
  st ← sm_loop f root fs t c;
  match st_images st with
  | [] => mret (st_files st, st_status st)
  | imgs =>
      match st_last st with
      | None => raise (NameError "md_file_path")
      | Some p =>
          _ ← mapM (fun '(fn, cap, i) => emit (DImageUnreferenced cap fn (i + shift_index) p)) imgs;
          mret (st_files st, 1)
      end
  end.

(* ------------------------------------------------------------------ *)
(** ** [validate_images] *)

Definition under (root p : string) : bool := String.prefix (String.append root "/") p.

(** Lines 273-280 for one row (visible row number [i]). *)
Definition row_missing (fs : list (string * file)) (i : Z) (files hashes : list string) : list (Z * string) :=
  map (fun p => (i, p.1)) (List.filter (fun p => negb (is_file fs p.1)) (zip files hashes)).

Definition row_mismatch (fs : list (string * file)) (i : Z) (files hashes : list string) : list (Z * string) :=
  map (fun p => (i, p.1))
    (List.filter (fun p => match fs_lookup fs p.1 with
                      | Some fl => negb (String.eqb (fdigest fl) p.2)
                      | None => false
                      end) (zip files hashes)).

Definition abs_images (f : frame) (root : string) (row : list string) : list string :=
  map (Py.path_join root) (image_files f row).

Definition missing_files (f : frame) (root : string) (fs : list (string * file)) : list (Z * string) :=
  List.concat (imap (fun j row => row_missing fs (Z.of_nat j + shift_index) (abs_images f root row) (md5s f row))
               (frows f)).

Definition mismatched_files (f : frame) (root : string) (fs : list (string * file)) : list (Z * string) :=
  List.concat (imap (fun j row => row_mismatch fs (Z.of_nat j + shift_index) (abs_images f root row) (md5s f row))
               (frows f)).

Definition count_mismatch (f : frame) (row : list string) : bool :=
  negb (Nat.eqb (List.length (image_files f row)) (List.length (captions f row))) ||
  negb (Nat.eqb (List.length (captions f row)) (List.length (md5s f row))).

Definition FILES_IGNORE : list string := [".DS_Store"].

(** Lines 305-321 *)
Definition superfluous_images (f : frame) (root : string) (fs : list (string * file)) : list string :=
  let csv_images := List.concat (map (abs_images f root) (frows f)) in
  List.filter (fun p => under root p && negb (Py.endswith ".md" (Py.path_name p))
                   && negb (mem_str (Py.path_name p) FILES_IGNORE) && negb (mem_str p csv_images))
    (map fst fs).

Definition validate_images (f : frame) (root : string) (fs : list (string * file)) : M Z :=
  let bad := indexes (count_mismatch f) (frows f) in
  if bool_decide (bad <> []) then _ ← emit (DImageCountMismatch (shifted bad)); mret 1 else
  let missing := missing_files f root fs in
  let mism := mismatched_files f root fs in
  _ ← when (bool_decide (missing <> [])) (DImageMissing missing);
  _ ← when (bool_decide (mism <> [])) (DMd5Mismatch mism);
  if bool_decide (missing <> [] \/ mism <> []) then mret 1 else
  let sup := superfluous_images f root fs in
  if bool_decide (sup <> []) then _ ← emit (DSuperfluousImages sup); mret 1 else mret 0.

(* ------------------------------------------------------------------ *)
(** ** [validate_reagent_resources] *)

(** The inputs: the reagent CSV as read, the validation configuration, the
    [orcid] fields of the creators of .zenodo.json, the Vendor column of the
    vendors CSV, the supporting-material root and the file system. *)
Record inputs := {
  csv : frame;
  configuration : config;
  creators : list string;
  vendor_names : list string;
  root : string;
  files : list (string * file) }.

(** Lines 216-221 *)
Definition superfluous_md (root : string) (fs : list (string * file)) (expected : list string)
    : list string :=
  List.filter (fun p => under root p && Py.endswith ".md" (Py.path_name p) && negb (mem_str p expected))
    (map fst fs).

Definition validate_reagent_resources (inp : inputs) : M Z :=
  let df := csv inp in
  let problematic_cells := empty_cells df in
  if bool_decide (problematic_cells <> []) then _ ← emit (DEmptyCells problematic_cells); mret 1 else
  let orcids := map Py.strip (creators inp) ++ ["NA"] in
  cfg ← inject_config (configuration inp) orcids (vendor_names inp);
  res ← validate_df df cfg;
  if bool_decide (res <> 0) then mret res else
  _ ← require_cols df contributor_cols;
  let dups := duplicated_indexes df in
  if bool_decide (dups <> []) then _ ← emit (DDuplicates (map shifted dups)); mret 1 else
  (* on a frame without rows [df[...].apply(..., axis=1)] returns a copy of
     the frame, and [df.index[...]] cannot be indexed with it *)
  if bool_decide (frows df = []) then raise (IndexError "arrays used as indices") else
  let p_contrib := indexes (contributor_missing df) (frows df) in
  if bool_decide (p_contrib <> []) then _ ← emit (DContributorMissing (shifted p_contrib)); mret 1 else
  let p_count := indexes (too_many_orcids df) (frows df) in
  if bool_decide (p_count <> []) then _ ← emit (DTooManyOrcids (shifted p_count)); mret 1 else
  let p_overlap := indexes (agree_disagree_overlap df) (frows df) in
  (* lines 180-182 iterate over the integer indexes themselves *)
  if bool_decide (p_overlap <> []) then raise (TypeError "'int' object is not iterable") else
  _ ← require_cols df image_cols;
  _ ← require_cols df [target_col; conjugate_col];
  results ← mapM (fun tc => validate_supporting_material df tc (root inp) (files inp))
                 (target_conjugates df);
  let md_file_paths_from_csv := List.concat (map fst results) in
  if existsb (fun r => negb (Z.eqb r.2 0)) results then mret 1 else
  let sup := superfluous_md (root inp) (files inp) md_file_paths_from_csv in
  if bool_decide (sup <> []) then _ ← emit (DSuperfluousMd sup); mret 1 else
  validate_images df (root inp) (files inp).

Definition status_of (m : M Z) : option Z := match m.2 with Ok z => Some z | Exc _ => None end.

(* ------------------------------------------------------------------ *)
(** ** Concrete inputs *)

Module Inputs.

Definition unlines (l : list string) : string := String.concat (String nl EmptyString) l.

Definition A : string := "0000-0001-9561-4256".
Definition B : string := "0000-0003-4379-8967".

Definition hdr : list string :=
  [target_col; conjugate_col; "Vendor"; "Contributor"; "Agree"; "Disagree";
   "Image Files"; "Captions"; "MD5"].

Definition row (vendor agree_cell disagree_cell caps : string) : list string :=
  ["CD20"; "AF488"; vendor; A; agree_cell; disagree_cell; "CD20_AF488/img1.png"; caps; "abc"].

(** The supporting document of [A] for CD20/AF488. *)
Definition doc (body : string) : string := unlines
  [body; "# Configurations";
   "|Target Name / Protein Biomarker|Conjugate|Vendor|Contributor|Agree|Disagree|Notes|";
   "|---|---|---|---|---|---|---|";
   "|CD20|AF488|VendorA|[0000-0001-9561-4256](https://orcid.org)|[0000-0001-9561-4256](https://orcid.org)|NA|none|";
   "# Publications"; "none"].

Definition doc_path : string := "/data/CD20_AF488/0000-0001-9561-4256.md".
Definition img_path : string := "/data/CD20_AF488/img1.png".

Definition mk (r : list string) (body : string) : inputs := {|
  csv := {| fcols := hdr; frows := [r] |};
  configuration := ∅;
  creators := [A; B];
  vendor_names := ["VendorA"];
  root := "/data";
  files := [(doc_path, {| fcontent := doc body; fdigest := "d41d" |});
            (img_path, {| fcontent := EmptyString; fdigest := "abc" |})] |}.

(** The scenario of the spec: everything consistent. *)
Definition ok_input : inputs := mk (row "VendorA" A "NA" "Fig1") "Figure img1.png: Fig1".


(** A blank Vendor cell and a Contributor absent from Agree and Disagree. *)
Definition blank_and_contributor : inputs := mk (row " " "NA" "NA" "Fig1") "Figure img1.png: Fig1".

(** The same ORCID six times in the Agree cell. *)
Definition six_times : inputs :=
  mk (row "VendorA" (String.concat ";" [A; A; A; A; A; A]) "NA" "Fig1") "Figure img1.png: Fig1".

(** The contributor both in Agree and in Disagree. *)
Definition overlap : inputs := mk (row "VendorA" A A "Fig1") "Figure img1.png: Fig1".

End Inputs.

(* ------------------------------------------------------------------ *)
(** ** Outcome of one iteration of the ORCID loop *)

(** What one iteration of lines 393-498 prints: it depends on the ORCID only. *)
Definition orcid_diags (f : frame) (fs : list (string * file)) (dp : string)
    (tc_rows : list (Z * list string)) (orcid : string) : list diag :=
  let p := md_path dp orcid in
  match fs_lookup fs p with
  | None => [DDocMissing p]
  | Some fl =>
      match (parse_doc (fcontent fl)).2 with
      | Exc e => [DDocException p e]
      | Ok t => if tables_differ t (csv_table f tc_rows orcid) then [DDocMismatch p] else []
      end
  end.

(** The loop variables after one iteration. *)
Definition orcid_step (f : frame) (fs : list (string * file)) (dp : string)
    (tc_rows : list (Z * list string)) (st : sm_state) (orcid : string) : sm_state :=
  let p := md_path dp orcid in
  {| st_status := if bool_decide (orcid_diags f fs dp tc_rows orcid = []) then st_status st else 1;
     st_images := match fs_lookup fs p with
                  | Some fl => unmatched_images (fcontent fl) (st_images st)
                  | None => st_images st
                  end;
     st_files := st_files st ++ [p];
     st_last := Some p |}.

(* ------------------------------------------------------------------ *)
(** ** Statements of the specification *)

Module SpecDefs.

(** Section 4.4, step 1: every listed character becomes an underscore. *)
Definition sanitize_char (ch : ascii) : ascii :=
  if existsb (Ascii.eqb ch) [" "; Ascii.ascii_of_nat 9; "/"; "\"; "{"; "}"; "["; "]"; "(";
                               ")"; "<"; ">"; ":"; "&"]%char
  then "_"%char else ch.

Fixpoint sanitize (s : string) : string :=
  match s with
  | EmptyString => EmptyString
  | String ch s' => String (sanitize_char ch) (sanitize s')
  end.

(** Two rows agree on every column of the concatenation of both tables. *)
Definition rows_agree (s c : table) (r r' : list (option cell)) : Prop :=
  forall x, x ∈ union_cols s c -> cell_at s r x = cell_at c r' x.

(** Equality of the two tables as unordered sets of rows. *)
Definition same_rows (s c : table) : Prop :=
  (forall r, r ∈ trows s -> exists r', r' ∈ trows c /\ rows_agree s c r r') /\
  (forall r', r' ∈ trows c -> exists r, r ∈ trows s /\ rows_agree s c r r').

(** No two rows of [t] agree on every column of the concatenation. *)
Definition no_repeated_rows (s c t : table) : Prop :=
  NoDup (map (align (union_cols s c) t) (trows t)).

(** A printed row number [j] designates the data row of zero-based index
    [j - 2], and that row has the property [P]. *)
Definition reported_row (f : frame) (P : list string -> Prop) (j : Z) : Prop :=
  exists k row, frows f !! k = Some row /\ j = Z.of_nat k + 2 /\ P row.

(** The configuration the schema validator receives. *)
Definition injected (inp : inputs) : config :=
  match (inject_config (configuration inp) (map Py.strip (creators inp) ++ ["NA"])
                       (vendor_names inp)).2 with
  | Ok cfg => cfg
  | Exc _ => ∅
  end.

(** Every row number a diagnostic prints is a data row's index + 2, for a
    row that violates the check that prints it. *)
Definition diag_rows_ok (inp : inputs) (d : diag) : Prop :=
  let f := csv inp in
  match d with
  | DEmptyCells cells =>
      forall c js, (c, js) ∈ cells -> forall j, j ∈ js ->
        exists n, fcols f !! n = Some c /\
          reported_row f (fun row => Py.strip (nth n row EmptyString) = EmptyString) j
  | DValueNotIn c js =>
      forall j, j ∈ js -> exists a, dict_of (injected inp) "column_is_in" !! c = Some a /\
        reported_row f (fun row => mem_str (get f c row) a = false) j
  | DMultiValueNotIn c js =>
      forall j, j ∈ js -> exists a, dict_of (injected inp) "multi_value_column_is_in" !! c = Some a /\
        reported_row f (fun row => exists t, t ∈ Py.split ";" (get f c row) /\
                                             mem_str (Py.strip t) a = false) j
  | DDuplicates groups =>
      forall g, g ∈ groups -> forall j, j ∈ g ->
        reported_row f (fun row => (2 <= List.length (List.filter
            (fun r => bool_decide (dup_key f r = dup_key f row)) (frows f)))%nat) j
  | DContributorMissing js =>
      forall j, j ∈ js -> reported_row f (fun row => contributor_missing f row = true) j
  | DTooManyOrcids js =>
      forall j, j ∈ js -> reported_row f (fun row => too_many_orcids f row = true) j
  | DImageUnreferenced cap fn j _ =>
      reported_row f (fun row => exists n, image_files f row !! n = Some fn /\
                                           captions f row !! n = Some cap) j
  | DImageCountMismatch js =>
      forall j, j ∈ js -> reported_row f (fun row => count_mismatch f row = true) j
  | DImageMissing es =>
      forall j p, (j, p) ∈ es ->
        reported_row f (fun row => p ∈ abs_images f (root inp) row /\ is_file (files inp) p = false) j
  | DMd5Mismatch es =>
      forall j p, (j, p) ∈ es ->
        reported_row f (fun row => exists n h fl, abs_images f (root inp) row !! n = Some p /\
                                   md5s f row !! n = Some h /\
                                   fs_lookup (files inp) p = Some fl /\ fdigest fl <> h) j
  | DDocMissing _ | DDocException _ _ | DDocMismatch _ | DSuperfluousMd _
  | DSuperfluousImages _ => True
  end.

(** The rows of [js] are exactly the data rows with property [P]. *)
Definition all_reported (f : frame) (P : list string -> Prop) (js : list Z) : Prop :=
  forall j, j ∈ js <-> reported_row f P j.

(** Every blank cell is reported under its column with its row number. *)
Definition blank_cells_reported (f : frame) (cells : list (string * list Z)) : Prop :=
  forall n c k row, fcols f !! n = Some c -> frows f !! k = Some row ->
    Py.strip (nth n row EmptyString) = EmptyString ->
    exists js, (c, js) ∈ cells /\ Z.of_nat k + 2 ∈ js.

(** Every row whose values, Contributor, Agree and Disagree aside, occur in
    another row is reported in some group. *)
Definition duplicates_reported (f : frame) (groups : list (list Z)) : Prop :=
  forall k row, frows f !! k = Some row ->
    (2 <= List.length (List.filter (fun r => bool_decide (dup_key f r = dup_key f row)) (frows f)))%nat ->
    exists g, g ∈ groups /\ Z.of_nat k + 2 ∈ g.

(** The value sets are injected and the schema validator accepts the CSV. *)
Definition schema_ok (inp : inputs) : Prop :=
  exists cfg, (inject_config (configuration inp) (map Py.strip (creators inp) ++ ["NA"])
                             (vendor_names inp)).2 = Ok cfg /\
              (validate_df (csv inp) cfg).2 = Ok 0.

(** ** Valid input sets (claim of section 4.3) *)









(** (t, c) is the target and conjugate of some row. *)
Definition in_group (f : frame) (t c : string) : Prop :=
  exists row, row ∈ frows f /\ get f target_col row = t /\ get f conjugate_col row = c.











End SpecDefs.

(* ------------------------------------------------------------------ *)
(** ** Character-wise maps of strings *)

Fixpoint str_map (g : ascii -> ascii) (s : string) : string :=
  match s with
  | EmptyString => EmptyString
  | String a s' => String (g a) (str_map g s')
  end.

(* ================================================================== *)
(** * Theorems *)

(** ** Small evaluations of the helpers *)

Example strip_ex : Py.strip "  a b	 " = "a b". Proof. reflexivity. Qed.
Example split_ex : Py.split ";" "a;;b" = ["a"; EmptyString; "b"]. Proof. reflexivity. Qed.
Example replace_ex : Py.replace "a b c" " " "_" = "a_b_c". Proof. reflexivity. Qed.
Example contains_ex : Py.contains "img1.png" "see img1.png here" = true. Proof. reflexivity. Qed.
Example name_ex : Py.path_name "dir/sub/img.png" = "img.png". Proof. reflexivity. Qed.
Example name_ex2 : Py.path_name "dir/sub/." = "sub". Proof. reflexivity. Qed.
Example findall_ex :
  findall_orcids "[0000-0001-9561-4256](u) and [0000-0003-4379-896X](v)"
  = ["0000-0001-9561-4256"; "0000-0003-4379-896X"].
Proof. reflexivity. Qed.
Example scenario_ok : validate_reagent_resources Inputs.ok_input = ([], Ok 0).
Proof. vm_compute. reflexivity. Qed.

(** ** The output monad *)

Lemma bind_ok {A B} (l : list diag) (a : A) (f : A -> M B) :
  mbind f ((l, Ok a) : M A) = (l ++ (f a).1, (f a).2).
Proof. cbn. destruct (f a). reflexivity. Qed.

Lemma bind_exc {A B} (l : list diag) (e : exn) (f : A -> M B) :
  mbind f ((l, Exc e) : M A) = (l, Exc e).
Proof. reflexivity. Qed.

Lemma bind_eta {A B} (m : M A) (f : A -> M B) :
  mbind f m = match m.2 with
              | Ok a => (m.1 ++ (f a).1, (f a).2)
              | Exc e => (m.1, Exc e)
              end.
Proof. destruct m as [l [a|e]]; [apply bind_ok | reflexivity]. Qed.

(** A fold whose steps never raise and print what depends on the element only. *)
Lemma foldM_ok {A B} (g : A -> B -> M A) (dg : B -> list diag) (h : A -> B -> A) :
  (forall a x, g a x = (dg x, Ok (h a x))) ->
  forall l a, foldM g a l = (List.concat (map dg l), Ok (fold_left h l a)).
Proof.
  intros Hg l. induction l as [|x l IH]; intros a; [reflexivity|].
  cbn [foldM]. rewrite Hg, bind_ok, IH. cbn. reflexivity.
Qed.

Lemma mapM_diags {A B} (f : A -> M B) (P : diag -> Prop) (l : list A) :
  (forall x, x ∈ l -> Forall P (f x).1) -> Forall P (mapM f l).1.
Proof.
  induction l as [|x l IH]; intros H; [constructor|].
  cbn [mapM]. rewrite bind_eta.
  destruct (f x) as [l1 [y|e]] eqn:Hf; cbn.
  - rewrite bind_eta. apply Forall_app; split.
    + specialize (H x ltac:(left)). rewrite Hf in H. exact H.
    + specialize (IH (fun y Hy => H y ltac:(right; exact Hy))).
      destruct (mapM f l) as [l2 [ys|e]]; cbn in *; rewrite ?app_nil_r; exact IH.
  - specialize (H x ltac:(left)). rewrite Hf in H. exact H.
Qed.

(* ------------------------------------------------------------------ *)
(** ** Value-set injection (lines 95-109) *)

(** C3: without a "column_is_in" key the second assignment of line 100
    replaces the first, so the injected [column_is_in] has no "Contributor"
    entry, while the Agree/Disagree entries are set as intended. *)
Theorem C3_column_is_in_without_contributor (cfg : config) (orcids vendors : list string)
    (cfg' : config) :
  cfg !! "column_is_in" = None ->
  (inject_config cfg orcids vendors).2 = Ok cfg' ->
  dict_of cfg' "column_is_in" = {["Vendor" := vendors]} /\
  dict_of cfg' "column_is_in" !! "Contributor" = None /\
  dict_of cfg' "multi_value_column_is_in" !! "Agree" = Some orcids /\
  dict_of cfg' "multi_value_column_is_in" !! "Disagree" = Some orcids.
Proof.
  intros H Hok. unfold inject_config in Hok. rewrite H in Hok. cbn [mbind M_bind mret M_ret] in Hok.
  rewrite lookup_insert_ne in Hok by done. rewrite lookup_insert_ne in Hok by done.
  destruct (cfg !! "multi_value_column_is_in") as [[d|]|]; cbn in Hok; inversion Hok; subst;
    unfold dict_of; repeat split; by simplify_map_eq.
Qed.

Lemma C3_column_is_in_without_contributor_witness :
  exists cfg', (inject_config ∅ ["0000-0001-9561-4256"; "NA"] ["VendorA"]).2 = Ok cfg' /\
    dict_of cfg' "column_is_in" !! "Contributor" = None.
Proof.
  eexists. split; [reflexivity|].
  apply (C3_column_is_in_without_contributor ∅ ["0000-0001-9561-4256"; "NA"] ["VendorA"]);
    reflexivity.
Defined.

(* ------------------------------------------------------------------ *)
(** ** Agree/Disagree parsing and the cardinality check *)

Lemma str_app_nil (s : string) : String.append EmptyString s = s.
Proof. reflexivity. Qed.

Lemma str_app_cons (ch : ascii) (s t : string) :
  String.append (String ch s) t = String ch (String.append s t).
Proof. reflexivity. Qed.

Lemma split_aux_app (sep : ascii) (x y cur : string) :
  Py.split_aux sep (String.append x (String sep y)) cur
  = Py.split_aux sep x cur ++ Py.split_aux sep y EmptyString.
Proof.
  revert cur. induction x as [|ch x IH]; intros cur;
    rewrite ?str_app_nil, ?str_app_cons; cbn -[Ascii.eqb].
  - rewrite Ascii.eqb_refl. reflexivity.
  - destruct (Ascii.eqb ch sep); cbn -[Ascii.eqb]; rewrite IH; reflexivity.
Qed.

Lemma parse_ids_app (x y : string) :
  parse_ids (String.append x (String ";" y)) = parse_ids x ++ parse_ids y.
Proof.
  unfold parse_ids, Py.split. rewrite split_aux_app, map_app, List.filter_app. reflexivity.
Qed.

(** C4 (as stated, refuted): a cell repeating one ORCID six times has a
    one-element set of ORCIDs, yet the row fails the cardinality check. *)
Lemma C4_repeated_orcid_fails_cardinality :
  validate_reagent_resources Inputs.six_times = ([DTooManyOrcids [2]], Ok 1) /\
  size (list_to_set (agree (csv Inputs.six_times)
                      (Inputs.row "VendorA" (String.concat ";" [Inputs.A; Inputs.A; Inputs.A;
                                                  Inputs.A; Inputs.A; Inputs.A]) "NA" "Fig1"))
        : gset string) = 1%nat /\
  too_many_orcids (csv Inputs.six_times)
    (Inputs.row "VendorA" (String.concat ";" [Inputs.A; Inputs.A; Inputs.A;
                                               Inputs.A; Inputs.A; Inputs.A]) "NA" "Fig1") = true.
Proof. split; [vm_compute; reflexivity|]. split; vm_compute; reflexivity. Qed.

(** C4 (amended): a row fails the cardinality check exactly when its parsed
    Agree list or its parsed Disagree list (split on ';', trimmed, empty and
    NA tokens dropped) has more than 5 entries, and the parse keeps every
    token: the parse of two cells joined by ';' is the concatenation of
    their parses, so a repeated ORCID counts once per occurrence. *)
Theorem C4_cardinality_counts_tokens (f : frame) (row : list string) :
  (too_many_orcids f row = true <->
     (MAX_ORCID_ENTRIES < List.length (agree f row) \/
      MAX_ORCID_ENTRIES < List.length (disagree f row))%nat) /\
  (forall x y, parse_ids (String.append x (String ";" y)) = parse_ids x ++ parse_ids y).
Proof.
  split; [|exact parse_ids_app].
  unfold too_many_orcids. rewrite orb_true_iff, !Nat.ltb_lt. reflexivity.
Qed.

(* ------------------------------------------------------------------ *)
(** ** Comparison of the configuration tables (lines 483-490) *)

Lemma elem_of_uniq `{EqDecision A} (seen l : list A) (x : A) :
  x ∈ uniq seen l <-> x ∈ l /\ x ∉ seen.
Proof.
  revert seen. induction l as [|y l IH]; intros seen; cbn.
  - split; [intros Hx; inversion Hx | intros [Hx _]; inversion Hx].
  - case_decide as Hy.
    + rewrite IH, elem_of_cons. split; [tauto|].
      intros [[->|Hx] Hn]; [contradiction|tauto].
    + rewrite elem_of_cons, IH, !elem_of_cons. split.
      * intros [->|[Hx Hn]]; [split; [left; done|exact Hy]|tauto].
      * intros [[->|Hx] Hn]; [left; reflexivity|].
        destruct (decide (x = y)) as [->|Hne]; [left; reflexivity|right; tauto].
Qed.

Lemma NoDup_uniq `{EqDecision A} (seen l : list A) : NoDup (uniq seen l).
Proof.
  revert seen. induction l as [|y l IH]; intros seen; cbn; [constructor|].
  case_decide; [apply IH|]. constructor; [|apply IH].
  rewrite elem_of_uniq, elem_of_cons. tauto.
Qed.

Lemma elem_of_drop_duplicates `{EqDecision A} (l : list A) (x : A) :
  x ∈ drop_duplicates l <-> x ∈ l.
Proof. unfold drop_duplicates. rewrite elem_of_uniq. split; [tauto|]. intros; split; [done|set_solver]. Qed.

Lemma incl_of_elem {A} (l l' : list A) : (forall x, x ∈ l -> x ∈ l') -> incl l l'.
Proof. intros H x Hx. apply list_elem_of_In, H, list_elem_of_In, Hx. Qed.

(** Concatenate-then-deduplicate against set equality for lists without
    repetitions. *)
Lemma concat_dedup_iff `{EqDecision A} (a b : list A) :
  NoDup a -> NoDup b ->
  (List.length a = List.length b /\ List.length (drop_duplicates (a ++ b)) = List.length a <->
   (forall x, x ∈ a <-> x ∈ b)).
Proof.
  intros Ha Hb. set (d := drop_duplicates (a ++ b)).
  assert (Hd : NoDup d) by apply NoDup_uniq.
  assert (Hdx : forall x, x ∈ d <-> x ∈ a \/ x ∈ b)
    by (intros x; unfold d; rewrite elem_of_drop_duplicates, elem_of_app; reflexivity).
  split.
  - intros [Hab Hda].
    assert (Hda' : incl d a).
    { apply (@NoDup_length_incl _ a d); [apply NoDup_ListNoDup, Ha|lia|].
      apply incl_of_elem. intros x Hx. apply Hdx. left. exact Hx. }
    assert (Hba : incl b a).
    { intros x Hx. apply Hda'. apply list_elem_of_In, Hdx. right. apply list_elem_of_In, Hx. }
    assert (Hab' : incl a b).
    { apply (@NoDup_length_incl _ b a); [apply NoDup_ListNoDup, Hb|lia|exact Hba]. }
    intros x. rewrite !list_elem_of_In. split; [apply Hab'|apply Hba].
  - intros Hab. split.
    + apply Permutation_length, NoDup_Permutation; done.
    + apply Permutation_length, NoDup_Permutation; [done|done|].
      intros x. rewrite Hdx, <- Hab. tauto.
Qed.

Lemma map_eq_iff {A B} (f g : A -> B) (l : list A) :
  map f l = map g l <-> (forall x, x ∈ l -> f x = g x).
Proof.
  induction l as [|x l IH]; cbn.
  - split; [intros _ y Hy; inversion Hy|reflexivity].
  - split.
    + intros Heq y Hy. injection Heq as Hx Hl. apply elem_of_cons in Hy as [->|Hy]; [done|].
      apply IH; done.
    + intros H. f_equal; [apply H; left|apply IH; intros y Hy; apply H; right; done].
Qed.

Lemma align_eq_iff (s c : table) (r r' : list (option cell)) :
  align (union_cols s c) s r = align (union_cols s c) c r' <-> SpecDefs.rows_agree s c r r'.
Proof. unfold align, SpecDefs.rows_agree. apply map_eq_iff. Qed.

Lemma tables_differ_false_iff (s c : table) :
  tables_differ s c = false <->
  List.length (trows s) = List.length (trows c) /\
  List.length (drop_duplicates (map (align (union_cols s c) s) (trows s) ++
                                map (align (union_cols s c) c) (trows c))) = List.length (trows s).
Proof.
  unfold tables_differ. rewrite orb_false_iff, !negb_false_iff, !Nat.eqb_eq. reflexivity.
Qed.

(** C5 (as stated, refuted): a document table that repeats a row passes
    the comparison against a CSV subset with a different set of rows. *)
Lemma C5_repeated_row_passes_comparison :
  let s := {| tcols := ["Contributor"]; trows := [[Some (CStr "A")]; [Some (CStr "A")]] |} in
  let c := {| tcols := ["Contributor"]; trows := [[Some (CStr "A")]; [Some (CStr "B")]] |} in
  tables_differ s c = false /\ ~ SpecDefs.same_rows s c.
Proof.
  cbn zeta. split; [reflexivity|].
  intros [_ H2]. destruct (H2 [Some (CStr "B")]) as [r [Hr Hagree]]; [right; left|].
  specialize (Hagree "Contributor" ltac:(left)).
  apply elem_of_cons in Hr as [->|Hr]; [discriminate|].
  apply elem_of_cons in Hr as [->|Hr]; [discriminate|inversion Hr].
Qed.

(** C5 (amended): when neither table repeats a row (the CSV side never does
    once the duplicate-row check has passed), the comparison succeeds
    exactly when the two tables are equal as unordered sets of rows, rows
    being compared column by column on the union of the column names. *)
Theorem C5_comparison_is_rowset_equality (s c : table) :
  SpecDefs.no_repeated_rows s c s -> SpecDefs.no_repeated_rows s c c ->
  (tables_differ s c = false <-> SpecDefs.same_rows s c).
Proof.
  unfold SpecDefs.no_repeated_rows. intros Hs Hc.
  rewrite tables_differ_false_iff.
  set (u := union_cols s c).
  set (a := map (align u s) (trows s)). set (b := map (align u c) (trows c)).
  assert (La : List.length a = List.length (trows s)) by apply length_map.
  assert (Lb : List.length b = List.length (trows c)) by apply length_map.
  rewrite <- La, <- Lb, (concat_dedup_iff a b Hs Hc).
  unfold SpecDefs.same_rows. split.
  - intros Hab. split.
    + intros r Hr. assert (Hx : align u s r ∈ b) by (apply Hab, list_elem_of_fmap; eauto).
      apply list_elem_of_fmap in Hx as [r' [Heq Hr']]. exists r'. split; [done|].
      apply align_eq_iff. exact Heq.
    + intros r' Hr'. assert (Hx : align u c r' ∈ a) by (apply Hab, list_elem_of_fmap; eauto).
      apply list_elem_of_fmap in Hx as [r [Heq Hr]]. exists r. split; [done|].
      apply align_eq_iff. symmetry. exact Heq.
  - intros [H1 H2] x. split.
    + intros Hx. apply list_elem_of_fmap in Hx as [r [-> Hr]].
      destruct (H1 r Hr) as [r' [Hr' Hag]]. apply list_elem_of_fmap.
      exists r'. split; [|done]. apply align_eq_iff. exact Hag.
    + intros Hx. apply list_elem_of_fmap in Hx as [r' [-> Hr']].
      destruct (H2 r' Hr') as [r [Hr Hag]]. apply list_elem_of_fmap.
      exists r. split; [|done]. symmetry. apply align_eq_iff. exact Hag.
Qed.

Lemma C5_comparison_is_rowset_equality_witness :
  let s := {| tcols := ["Contributor"; "Agree"]; trows := [[Some (CStr "A"); Some (CSet {["A"]})];
                                                         [Some (CStr "B"); Some (CSet ∅)]] |} in
  let c := {| tcols := ["Agree"; "Contributor"]; trows := [[Some (CSet ∅); Some (CStr "B")];
                                                         [Some (CSet {["A"]}); Some (CStr "A")]] |} in
  SpecDefs.no_repeated_rows s c s /\ SpecDefs.no_repeated_rows s c c /\
  (tables_differ s c = false <-> SpecDefs.same_rows s c).
Proof.
  cbn zeta.
  assert (Hs : SpecDefs.no_repeated_rows
     {| tcols := ["Contributor"; "Agree"]; trows := [[Some (CStr "A"); Some (CSet {["A"]})];
                                                     [Some (CStr "B"); Some (CSet ∅)]] |}
     {| tcols := ["Agree"; "Contributor"]; trows := [[Some (CSet ∅); Some (CStr "B")];
                                                     [Some (CSet {["A"]}); Some (CStr "A")]] |}
     {| tcols := ["Contributor"; "Agree"]; trows := [[Some (CStr "A"); Some (CSet {["A"]})];
                                                     [Some (CStr "B"); Some (CSet ∅)]] |})
    by (unfold SpecDefs.no_repeated_rows; apply NoDup_ListNoDup; vm_compute;
        repeat constructor; cbn; intuition discriminate).
  assert (Hc : SpecDefs.no_repeated_rows
     {| tcols := ["Contributor"; "Agree"]; trows := [[Some (CStr "A"); Some (CSet {["A"]})];
                                                     [Some (CStr "B"); Some (CSet ∅)]] |}
     {| tcols := ["Agree"; "Contributor"]; trows := [[Some (CSet ∅); Some (CStr "B")];
                                                     [Some (CSet {["A"]}); Some (CStr "A")]] |}
     {| tcols := ["Agree"; "Contributor"]; trows := [[Some (CSet ∅); Some (CStr "B")];
                                                     [Some (CSet {["A"]}); Some (CStr "A")]] |})
    by (unfold SpecDefs.no_repeated_rows; apply NoDup_ListNoDup; vm_compute;
        repeat constructor; cbn; intuition discriminate).
  split; [exact Hs|]. split; [exact Hc|].
  apply C5_comparison_is_rowset_equality; assumption.
Defined.

(* ------------------------------------------------------------------ *)
(** ** A row in both Agree and Disagree *)

(** C6: the disjointness check of lines 174-188 raises a [TypeError] from
    the list comprehension of lines 180-182 instead of reporting the row. *)
Theorem C6_overlap_raises :
  validate_reagent_resources Inputs.overlap = ([], Exc (TypeError "'int' object is not iterable")).
Proof. vm_compute. reflexivity. Qed.

(* ------------------------------------------------------------------ *)
(** ** The ORCID loop of [validate_supporting_material] *)

Lemma silent_bind {A B} (m : M A) (g : A -> M B) :
  m.1 = [] -> (forall a, (g a).1 = []) -> (mbind g m).1 = [].
Proof. intros Hm Hg. rewrite bind_eta, Hm. destruct m.2; cbn; [apply Hg|reflexivity]. Qed.

Lemma mapM_silent {A B} (g : A -> M B) (l : list A) :
  (forall x, (g x).1 = []) -> (mapM g l).1 = [].
Proof.
  intros Hg. induction l as [|x l IH]; [reflexivity|]. cbn [mapM].
  apply silent_bind; [apply Hg|intros y]. apply silent_bind; [exact IH|reflexivity].
Qed.

Ltac silent_tac :=
  repeat match goal with
  | |- (mbind _ _).1 = [] => apply silent_bind; [|intros ?]
  | |- (mapM _ _).1 = [] => apply mapM_silent; intros ?
  | |- (match ?x with _ => _ end).1 = [] => destruct x
  | |- (if ?b then _ else _).1 = [] => destruct b
  | |- (_ _).1 = [] => progress (unfold index_or_raise, make_frame, drop_col, apply_col,
                                  orcid_set_cell, contributor_cell)
  end; try reflexivity.

(** Parsing a document prints nothing. *)
Lemma parse_doc_silent (content : string) : (parse_doc content).1 = [].
Proof. unfold parse_doc. silent_tac. Qed.

Lemma process_orcid_eq f fs dp tc_rows st orcid :
  process_orcid f fs dp tc_rows st orcid
  = (orcid_diags f fs dp tc_rows orcid, Ok (orcid_step f fs dp tc_rows st orcid)).
Proof.
  unfold process_orcid, orcid_step, orcid_diags.
  destruct (fs_lookup fs (md_path dp orcid)) as [fl|]; [|reflexivity].
  pose proof (parse_doc_silent (fcontent fl)) as Hs.
  destruct (parse_doc (fcontent fl)) as [l [t|e]]; cbn in Hs; subst l.
  - cbn [try_except mbind M_bind]. cbn.
    destruct (tables_differ t (csv_table f tc_rows orcid)); reflexivity.
  - reflexivity.
Qed.

Lemma sm_loop_eq f root fs t c :
  sm_loop f root fs t c =
  (List.concat (map (orcid_diags f fs (data_path root t c) (group_rows f t c))
                    (group_orcids f (group_rows f t c))),
   Ok (fold_left (orcid_step f fs (data_path root t c) (group_rows f t c))
                 (group_orcids f (group_rows f t c))
                 {| st_status := 0; st_images := group_images f (group_rows f t c);
                    st_files := []; st_last := None |})).
Proof. unfold sm_loop. apply foldM_ok. intros; apply process_orcid_eq. Qed.

(** *** Sanitizing the directory name *)

Lemma substring_all (s : string) (m : nat) : (String.length s <= m)%nat -> substring 0 m s = s.
Proof.
  revert m. induction s as [|a s IH]; intros m Hm; destruct m; cbn in *; try reflexivity; try lia.
  rewrite IH by lia. reflexivity.
Qed.

Lemma replace_fuel_single (n : nat) (ch nc : ascii) (s : string) :
  (String.length s <= n)%nat ->
  Py.replace_fuel n (String ch EmptyString) (String nc EmptyString) s
  = str_map (fun a => if ascii_dec ch a then nc else a) s.
Proof.
  revert s. induction n as [|n IH]; intros s Hs.
  - destruct s; cbn in Hs; [reflexivity|lia].
  - destruct s as [|a s]; [reflexivity|]. cbn in Hs.
    cbn [Py.replace_fuel String.prefix str_map].
    destruct (ascii_dec ch a) as [->|Hne].
    + assert (Hp : String.prefix EmptyString s = true) by (destruct s; reflexivity).
      rewrite Hp, str_app_cons, str_app_nil. f_equal.
      cbn [String.length substring]. rewrite substring_all by lia. apply IH. lia.
    + f_equal. apply IH. lia.
Qed.

Lemma str_map_absent (ch nc : ascii) (s : string) :
  Py.contains (String ch EmptyString) s = false ->
  str_map (fun a => if ascii_dec ch a then nc else a) s = s.
Proof.
  induction s as [|a s IH]; intros H; [reflexivity|].
  cbn [Py.contains String.prefix] in H. apply orb_false_iff in H as [H1 H2].
  cbn [str_map]. destruct (ascii_dec ch a); [destruct s; discriminate|].
  rewrite IH by exact H2. reflexivity.
Qed.

Lemma str_map_compose (g h : ascii -> ascii) (s : string) :
  str_map g (str_map h s) = str_map (fun a => g (h a)) s.
Proof. induction s as [|a s IH]; cbn; [reflexivity|]. rewrite IH. reflexivity. Qed.

Lemma str_map_id (s : string) : str_map (fun a => a) s = s.
Proof. induction s as [|a s IH]; cbn; [reflexivity|]. rewrite IH. reflexivity. Qed.

Lemma str_map_ext (g h : ascii -> ascii) (s : string) :
  (forall a, g a = h a) -> str_map g s = str_map h s.
Proof. intros E. induction s as [|a s IH]; cbn; [reflexivity|]. rewrite E, IH. reflexivity. Qed.

Lemma replace_char_list_map (chs : list ascii) (s : string) :
  replace_char_list s (map (fun ch => String ch EmptyString) chs) "_"
  = str_map (fun a => fold_left (fun a ch => if ascii_dec ch a then "_"%char else a) chs a) s.
Proof.
  unfold replace_char_list. revert s. induction chs as [|ch chs IH]; intros s.
  - cbn. symmetry. apply str_map_id.
  - cbn [map fold_left].
    assert (Hstep : (if Py.contains (String ch EmptyString) s
                     then Py.replace s (String ch EmptyString) "_" else s)
                    = str_map (fun a => if ascii_dec ch a then "_"%char else a) s).
    { destruct (Py.contains (String ch EmptyString) s) eqn:Hc.
      - unfold Py.replace. apply replace_fuel_single. lia.
      - symmetry. apply str_map_absent. exact Hc. }
    rewrite Hstep, IH, str_map_compose. reflexivity.
Qed.

Lemma sanitize_str_map (s : string) : SpecDefs.sanitize s = str_map SpecDefs.sanitize_char s.
Proof. induction s as [|a s IH]; cbn; [reflexivity|]. rewrite IH. reflexivity. Qed.

Lemma replace_char_list_sanitize (s : string) :
  replace_char_list s invalid_chars "_" = SpecDefs.sanitize s.
Proof.
  change invalid_chars with (map (fun ch => String ch EmptyString)
    [" "; Ascii.ascii_of_nat 9; "/"; "\"; "{"; "}"; "["; "]"; "("; ")"; "<"; ">"; ":"; "&"]%char).
  rewrite replace_char_list_map, sanitize_str_map. apply str_map_ext.
  intros [[] [] [] [] [] [] [] []]; reflexivity.
Qed.

Lemma sanitize_no_slash (s : string) : String.prefix "/" (SpecDefs.sanitize s) = false.
Proof.
  destruct s as [|a s]; [reflexivity|]. cbn [SpecDefs.sanitize String.prefix].
  assert (Ha : Ascii.eqb (SpecDefs.sanitize_char a) "/" = false)
    by (destruct a as [[] [] [] [] [] [] [] []]; reflexivity).
  destruct (ascii_dec "/" (SpecDefs.sanitize_char a)) as [E|]; [|reflexivity].
  rewrite <- E in Ha. discriminate.
Qed.

Lemma str_app_assoc (x y z : string) :
  String.append (String.append x y) z = String.append x (String.append y z).
Proof. induction x as [|a x IH]; rewrite ?str_app_nil, ?str_app_cons; [reflexivity|]. rewrite IH. reflexivity. Qed.

Lemma prefix_single_cons (x a : ascii) (s : string) :
  String.prefix (String x EmptyString) (String a s) = if ascii_dec x a then true else false.
Proof. cbn. destruct (ascii_dec x a); [destruct s|]; reflexivity. Qed.

Lemma prefix_slash_md (o : string) :
  String.prefix "/" o = false -> String.prefix "/" (String.append o ".md") = false.
Proof.
  intros H. destruct o as [|a o]; [reflexivity|]. rewrite str_app_cons.
  rewrite prefix_single_cons in H |- *. exact H.
Qed.

Lemma md_path_data_path (root t c o : string) :
  String.prefix "/" o = false ->
  md_path (data_path root t c) o
  = String.append root (String.append "/" (String.append
      (SpecDefs.sanitize (String.append t (String.append "_" c)))
      (String.append "/" (String.append o ".md")))).
Proof.
  intros Ho. unfold md_path, data_path, Py.path_join.
  rewrite replace_char_list_sanitize, sanitize_no_slash, prefix_slash_md by exact Ho.
  rewrite !str_app_assoc. reflexivity.
Qed.

(** *** Lists and membership *)

Lemma elem_of_filter_bool {A} (p : A -> bool) (l : list A) (x : A) :
  x ∈ List.filter p l <-> x ∈ l /\ p x = true.
Proof. rewrite !list_elem_of_In. apply filter_In. Qed.

Lemma elem_of_concat_map {A B} (g : A -> list B) (l : list A) (x : B) :
  x ∈ List.concat (map g l) <-> exists y, y ∈ l /\ x ∈ g y.
Proof.
  induction l as [|y l IH]; cbn.
  - split; [intros Hx; inversion Hx|intros [? [Hy _]]; inversion Hy].
  - rewrite elem_of_app, IH. split.
    + intros [Hx|[z [Hz Hx]]]; [exists y; split; [left|done]|exists z; split; [right|]; done].
    + intros [z [Hz Hx]]. apply elem_of_cons in Hz as [->|Hz]; [left; done|right; eauto].
Qed.

Lemma parse_ids_not_NA (x o : string) : o ∈ parse_ids x -> o <> "NA".
Proof.
  unfold parse_ids. rewrite elem_of_filter_bool. intros [_ H] ->. discriminate.
Qed.

Lemma elem_of_group_orcids (f : frame) (tc : list (Z * list string)) (o : string) :
  o ∈ group_orcids f tc <-> exists i row, (i, row) ∈ tc /\ (o ∈ agree f row \/ o ∈ disagree f row).
Proof.
  unfold group_orcids. rewrite elem_of_filter_bool, elem_of_drop_duplicates, elem_of_app,
    !elem_of_concat_map. split.
  - intros [[[[i row] [Hr Ho]]|[[i row] [Hr Ho]]] _]; exists i, row; tauto.
  - intros [i [row [Hr Ho]]]. split.
    + destruct Ho as [Ho|Ho]; [left|right]; exists (i, row); done.
    + assert (o <> "NA") by (destruct Ho as [Ho|Ho]; eapply parse_ids_not_NA; exact Ho).
      apply negb_true_iff, String.eqb_neq. exact H.
Qed.

(** *** The loop variables across the loop *)

Section Loop.
Variables (f : frame) (fs : list (string * file)) (dp : string) (tc : list (Z * list string)).

Lemma fold_status_one (l : list string) (st : sm_state) :
  st_status st = 1 -> st_status (fold_left (orcid_step f fs dp tc) l st) = 1.
Proof.
  revert st. induction l as [|o l IH]; intros st Hst; [exact Hst|].
  cbn [fold_left]. apply IH. cbn. case_bool_decide; [exact Hst|reflexivity].
Qed.

Lemma fold_status_hit (l : list string) (st : sm_state) (o : string) :
  o ∈ l -> orcid_diags f fs dp tc o <> [] ->
  st_status (fold_left (orcid_step f fs dp tc) l st) = 1.
Proof.
  revert st. induction l as [|o' l IH]; intros st Ho Hd; [inversion Ho|].
  cbn [fold_left]. apply elem_of_cons in Ho as [->|Ho]; [|apply IH; done].
  apply fold_status_one. cbn. case_bool_decide; [contradiction|reflexivity].
Qed.

Lemma fold_status_zero (l : list string) (st : sm_state) :
  st_status st = 0 -> (forall o, o ∈ l -> orcid_diags f fs dp tc o = []) ->
  st_status (fold_left (orcid_step f fs dp tc) l st) = 0.
Proof.
  revert st. induction l as [|o l IH]; intros st Hst Hd; [exact Hst|].
  cbn [fold_left]. apply IH; [|intros o' Ho'; apply Hd; right; exact Ho'].
  cbn. case_bool_decide as Hb; [exact Hst|]. exfalso. apply Hb, Hd. left.
Qed.

Lemma fold_images (l : list string) (st : sm_state) (fn cap : string) (i : Z) :
  (fn, cap, i) ∈ st_images (fold_left (orcid_step f fs dp tc) l st) <->
  (fn, cap, i) ∈ st_images st /\
  forall o fl, o ∈ l -> fs_lookup fs (md_path dp o) = Some fl ->
    ~ (Py.contains (Py.path_name fn) (fcontent fl) = true /\ Py.contains cap (fcontent fl) = true).
Proof.
  revert st. induction l as [|o l IH]; intros st; cbn [fold_left].
  - split; [intros H; split; [exact H|intros ? ? Ho; inversion Ho]|tauto].
  - rewrite IH. cbn [st_images orcid_step].
    destruct (fs_lookup fs (md_path dp o)) as [fl0|] eqn:Hlk.
    + unfold unmatched_images. rewrite elem_of_filter_bool, orb_true_iff, !negb_true_iff.
      split.
      * intros [[Hx Hc] Hrest]. split; [exact Hx|]. intros o' fl Ho' Hfl.
        apply elem_of_cons in Ho' as [->|Ho']; [|apply (Hrest o' fl Ho' Hfl)].
        rewrite Hlk in Hfl. injection Hfl as <-. intros [H1 H2].
        destruct Hc as [Hc|Hc]; congruence.
      * intros [Hx Hall]. split; [split; [exact Hx|]|].
        -- specialize (Hall o fl0 ltac:(left) Hlk).
           destruct (Py.contains (Py.path_name fn) (fcontent fl0)); [|left; reflexivity].
           destruct (Py.contains cap (fcontent fl0)); [|right; reflexivity]. tauto.
        -- intros o' fl Ho' Hfl. apply (Hall o' fl); [right; exact Ho'|exact Hfl].
    + split.
      * intros [Hx Hrest]. split; [exact Hx|]. intros o' fl Ho' Hfl.
        apply elem_of_cons in Ho' as [->|Ho']; [congruence|apply (Hrest o' fl Ho' Hfl)].
      * intros [Hx Hall]. split; [exact Hx|]. intros o' fl Ho' Hfl.
        apply (Hall o' fl); [right; exact Ho'|exact Hfl].
Qed.

End Loop.

(** C7: the expected documents of a (target, conjugate) group are those of
    the ORCIDs listed in the parsed Agree or Disagree cells of its rows (NA
    never is one), at <root>/<sanitized target_conjugate>/<orcid>.md (for an
    ORCID that does not itself start with '/'); the loop prints, for every
    one of these ORCIDs in turn, what its own document calls for, whatever
    happened to the previous ones, and a missing document is printed and
    makes the status 1. *)
Theorem C7_expected_documents (f : frame) (root : string) (fs : list (string * file))
    (t c o : string) :
  String.prefix "/" o = false ->
  (o ∈ group_orcids f (group_rows f t c) <->
     exists i row, (i, row) ∈ group_rows f t c /\ (o ∈ agree f row \/ o ∈ disagree f row)) /\
  md_path (data_path root t c) o
  = String.append root (String.append "/" (String.append
      (SpecDefs.sanitize (String.append t (String.append "_" c)))
      (String.append "/" (String.append o ".md")))) /\
  exists st,
    sm_loop f root fs t c
    = (List.concat (map (orcid_diags f fs (data_path root t c) (group_rows f t c))
                        (group_orcids f (group_rows f t c))), Ok st) /\
    (o ∈ group_orcids f (group_rows f t c) ->
     fs_lookup fs (md_path (data_path root t c) o) = None ->
     DDocMissing (md_path (data_path root t c) o)
       ∈ List.concat (map (orcid_diags f fs (data_path root t c) (group_rows f t c))
                          (group_orcids f (group_rows f t c))) /\
     st_status st = 1).
Proof.
  intros Hslash. split; [apply elem_of_group_orcids|]. split; [apply md_path_data_path, Hslash|].
  eexists. split; [apply sm_loop_eq|].
  intros Ho Hmiss.
  assert (Hd : orcid_diags f fs (data_path root t c) (group_rows f t c) o
               = [DDocMissing (md_path (data_path root t c) o)])
    by (unfold orcid_diags; rewrite Hmiss; reflexivity).
  split.
  - apply elem_of_concat_map. exists o. split; [exact Ho|]. rewrite Hd. left.
  - apply (fold_status_hit _ _ _ _ _ _ o Ho). rewrite Hd. discriminate.
Qed.

Lemma C7_expected_documents_witness :
  String.prefix "/" Inputs.A = false /\
  md_path (data_path "/data" "CD20" "AF488") Inputs.A = Inputs.doc_path.
Proof.
  split; [reflexivity|].
  destruct (C7_expected_documents (csv Inputs.ok_input) "/data" (files Inputs.ok_input)
              "CD20" "AF488" Inputs.A eq_refl) as [_ [H _]].
  rewrite H. reflexivity.
Defined.

(* ------------------------------------------------------------------ *)
(** ** Image references (lines 416-425) *)


(* ------------------------------------------------------------------ *)
(** ** Missing images and MD5 mismatches (lines 270-293) *)

Lemma elem_of_map_iff {A B} (g : A -> B) (l : list A) (x : B) :
  x ∈ map g l <-> exists y, x = g y /\ y ∈ l.
Proof.
  rewrite list_elem_of_In, in_map_iff. split.
  - intros [y [<- Hy]]. exists y. split; [done|apply list_elem_of_In, Hy].
  - intros [y [-> Hy]]. exists y. split; [done|apply list_elem_of_In, Hy].
Qed.

Lemma elem_of_zip_pair {A B} (l : list A) (k : list B) (x : A) (y : B) :
  (x, y) ∈ zip l k <-> exists n, l !! n = Some x /\ k !! n = Some y.
Proof.
  rewrite elem_of_lookup_zip_with. split.
  - intros [n [x' [y' [[= -> ->] [Hl Hk]]]]]. eauto.
  - intros [n [Hl Hk]]. exists n, x, y. done.
Qed.

Lemma elem_of_List_concat {A} (L : list (list A)) (x : A) :
  x ∈ List.concat L <-> exists y, y ∈ L /\ x ∈ y.
Proof.
  rewrite list_elem_of_In, in_concat. split.
  - intros [y [Hy Hx]]. exists y. split; apply list_elem_of_In; done.
  - intros [y [Hy Hx]]. exists y. split; apply list_elem_of_In; done.
Qed.

Lemma indexes_from_nil {A} (p : A -> bool) (i : Z) (l : list A) :
  indexes_from p i l = [] <-> forall x, x ∈ l -> p x = false.
Proof.
  revert i. induction l as [|x l IH]; intros i; cbn.
  - split; [intros _ y Hy; inversion Hy|reflexivity].
  - destruct (p x) eqn:Hx.
    + split; [discriminate|]. intros H. rewrite (H x ltac:(left)) in Hx. discriminate.
    + rewrite IH. split.
      * intros H y Hy. apply elem_of_cons in Hy as [->|Hy]; [exact Hx|apply H, Hy].
      * intros H y Hy. apply H. right. exact Hy.
Qed.

Lemma elem_of_missing_files (f : frame) (root : string) (fs : list (string * file)) (j : Z) (p : string) :
  (j, p) ∈ missing_files f root fs <->
  exists k row n h, frows f !! k = Some row /\ j = Z.of_nat k + shift_index /\
    abs_images f root row !! n = Some p /\ md5s f row !! n = Some h /\ is_file fs p = false.
Proof.
  unfold missing_files. rewrite elem_of_List_concat. split.
  - intros [y [Hy Hx]]. apply elem_of_lookup_imap in Hy as [k [row [-> Hk]]].
    unfold row_missing in Hx. apply elem_of_map_iff in Hx as [[q h] [[= -> ->] Hq]].
    apply elem_of_filter_bool in Hq as [Hq Hf]. apply elem_of_zip_pair in Hq as [n [Hn Hh]].
    exists k, row, n, h. repeat split; [done|done|done|]. apply negb_true_iff, Hf.
  - intros [k [row [n [h [Hk [-> [Hn [Hh Hf]]]]]]]].
    eexists. split; [apply elem_of_lookup_imap; exists k, row; split; [reflexivity|exact Hk]|].
    unfold row_missing. apply elem_of_map_iff. exists (p, h). split; [reflexivity|].
    apply elem_of_filter_bool. split; [apply elem_of_zip_pair; eauto|]. cbn. rewrite Hf. reflexivity.
Qed.

Lemma elem_of_mismatched_files (f : frame) (root : string) (fs : list (string * file)) (j : Z) (p : string) :
  (j, p) ∈ mismatched_files f root fs <->
  exists k row n h fl, frows f !! k = Some row /\ j = Z.of_nat k + shift_index /\
    abs_images f root row !! n = Some p /\ md5s f row !! n = Some h /\
    fs_lookup fs p = Some fl /\ fdigest fl <> h.
Proof.
  unfold mismatched_files. rewrite elem_of_List_concat. split.
  - intros [y [Hy Hx]]. apply elem_of_lookup_imap in Hy as [k [row [-> Hk]]].
    unfold row_mismatch in Hx. apply elem_of_map_iff in Hx as [[q h] [[= -> ->] Hq]].
    apply elem_of_filter_bool in Hq as [Hq Hf]. apply elem_of_zip_pair in Hq as [n [Hn Hh]].
    cbn in Hf. destruct (fs_lookup fs q) as [fl|] eqn:Hl; [|discriminate].
    exists k, row, n, h, fl. repeat split; try done.
    apply negb_true_iff, String.eqb_neq in Hf. exact Hf.
  - intros [k [row [n [h [fl [Hk [-> [Hn [Hh [Hl Hd]]]]]]]]]].
    eexists. split; [apply elem_of_lookup_imap; exists k, row; split; [reflexivity|exact Hk]|].
    unfold row_mismatch. apply elem_of_map_iff. exists (p, h). split; [reflexivity|].
    apply elem_of_filter_bool. split; [apply elem_of_zip_pair; eauto|]. cbn. rewrite Hl.
    apply negb_true_iff, String.eqb_neq. exact Hd.
Qed.

Lemma count_ok_lengths (f : frame) (root : string) (row : list string) :
  count_mismatch f row = false ->
  List.length (abs_images f root row) = List.length (md5s f row).
Proof.
  unfold count_mismatch, abs_images. rewrite orb_false_iff, !negb_false_iff, !Nat.eqb_eq.
  intros [H1 H2]. rewrite length_map. lia.
Qed.

(** C8: once every row lists as many captions and hashes as image files,
    [validate_images] collects the missing files and the hash mismatches of
    all rows, each with its row number (index + 2) and absolute path, prints
    both lists when both are non-empty and then returns 1; it returns at
    that stage exactly when one of them is non-empty, and otherwise goes on
    to the superfluous-image check. *)
Theorem C8_missing_and_mismatch_reported (f : frame) (root : string) (fs : list (string * file)) :
  indexes (count_mismatch f) (frows f) = [] ->
  (forall j p, (j, p) ∈ missing_files f root fs <->
     exists k row, frows f !! k = Some row /\ j = Z.of_nat k + 2 /\
       p ∈ abs_images f root row /\ is_file fs p = false) /\
  (forall j p, (j, p) ∈ mismatched_files f root fs <->
     exists k row n h fl, frows f !! k = Some row /\ j = Z.of_nat k + 2 /\
       abs_images f root row !! n = Some p /\ md5s f row !! n = Some h /\
       fs_lookup fs p = Some fl /\ fdigest fl <> h) /\
  (missing_files f root fs <> [] \/ mismatched_files f root fs <> [] ->
     validate_images f root fs =
     ((if bool_decide (missing_files f root fs = []) then []
       else [DImageMissing (missing_files f root fs)]) ++
      (if bool_decide (mismatched_files f root fs = []) then []
       else [DMd5Mismatch (mismatched_files f root fs)]), Ok 1)) /\
  (missing_files f root fs = [] -> mismatched_files f root fs = [] ->
     validate_images f root fs =
     (if bool_decide (superfluous_images f root fs = []) then ([], Ok 0)
      else ([DSuperfluousImages (superfluous_images f root fs)], Ok 1))).
Proof.
  intros Hbad.
  assert (Hrows : forall row, row ∈ frows f -> count_mismatch f row = false)
    by (apply (indexes_from_nil _ 0), Hbad).
  split; [|split; [|split]].
  - intros j p. rewrite elem_of_missing_files. split.
    + intros [k [row [n [h [Hk [-> [Hn [_ Hf]]]]]]]]. exists k, row.
      repeat split; [done|eapply list_elem_of_lookup_2; exact Hn|done].
    + intros [k [row [Hk [-> [Hp Hf]]]]].
      apply list_elem_of_lookup in Hp as [n Hn].
      assert (Hlen := count_ok_lengths f root row (Hrows row (list_elem_of_lookup_2 _ _ _ Hk))).
      destruct (lookup_lt_is_Some_2 (md5s f row) n) as [h Hh].
      { rewrite <- Hlen. apply lookup_lt_is_Some_1. eauto. }
      exists k, row, n, h. done.
  - intros j p. apply elem_of_mismatched_files.
  - intros Hne. unfold validate_images. rewrite Hbad. cbn zeta.
    rewrite (bool_decide_eq_false_2 (([] : list Z) <> [])) by tauto.
    unfold when. destruct Hne as [Hne|Hne].
    + rewrite (bool_decide_eq_true_2 (missing_files f root fs <> [])) by exact Hne.
      rewrite (bool_decide_eq_false_2 (missing_files f root fs = [])) by exact Hne.
      rewrite (bool_decide_eq_true_2 (_ \/ _)) by (left; exact Hne).
      destruct (decide (mismatched_files f root fs = [])) as [Hm|Hm].
      * rewrite (bool_decide_eq_false_2 (mismatched_files f root fs <> [])) by tauto.
        rewrite (bool_decide_eq_true_2 (mismatched_files f root fs = [])) by exact Hm.
        reflexivity.
      * rewrite (bool_decide_eq_true_2 (mismatched_files f root fs <> [])) by exact Hm.
        rewrite (bool_decide_eq_false_2 (mismatched_files f root fs = [])) by exact Hm.
        reflexivity.
    + rewrite (bool_decide_eq_true_2 (mismatched_files f root fs <> [])) by exact Hne.
      rewrite (bool_decide_eq_false_2 (mismatched_files f root fs = [])) by exact Hne.
      rewrite (bool_decide_eq_true_2 (_ \/ _)) by (right; exact Hne).
      destruct (decide (missing_files f root fs = [])) as [Hm|Hm].
      * rewrite (bool_decide_eq_false_2 (missing_files f root fs <> [])) by tauto.
        rewrite (bool_decide_eq_true_2 (missing_files f root fs = [])) by exact Hm.
        reflexivity.
      * rewrite (bool_decide_eq_true_2 (missing_files f root fs <> [])) by exact Hm.
        rewrite (bool_decide_eq_false_2 (missing_files f root fs = [])) by exact Hm.
        reflexivity.
  - intros Hm Hx. unfold validate_images. rewrite Hbad, Hm, Hx. cbn zeta.
    rewrite (bool_decide_eq_false_2 (([] : list Z) <> [])) by tauto.
    unfold when. rewrite (bool_decide_eq_false_2 (([] : list (Z * string)) <> [])) by tauto.
    rewrite (bool_decide_eq_false_2 (_ \/ _)) by tauto.
    destruct (decide (superfluous_images f root fs = [])) as [Hs|Hs].
    + rewrite (bool_decide_eq_false_2 (superfluous_images f root fs <> [])) by tauto.
      rewrite (bool_decide_eq_true_2 (superfluous_images f root fs = [])) by exact Hs.
      reflexivity.
    + rewrite (bool_decide_eq_true_2 (superfluous_images f root fs <> [])) by exact Hs.
      rewrite (bool_decide_eq_false_2 (superfluous_images f root fs = [])) by exact Hs.
      reflexivity.
Qed.

Lemma C8_missing_and_mismatch_reported_witness :
  indexes (count_mismatch (csv Inputs.ok_input)) (frows (csv Inputs.ok_input)) = [] /\
  validate_images (csv Inputs.ok_input) "/data" [] = ([DImageMissing [(2, Inputs.img_path)]], Ok 1).
Proof.
  split; [vm_compute; reflexivity|].
  destruct (C8_missing_and_mismatch_reported (csv Inputs.ok_input) "/data" [])
    as [_ [_ [H _]]]; [vm_compute; reflexivity|].
  rewrite H; [vm_compute; reflexivity|].
  left. intros Hc. vm_compute in Hc. discriminate Hc.
Defined.

(* ------------------------------------------------------------------ *)
(** ** Row numbers of the diagnostics *)

Lemma forall_bind {A B} (P : diag -> Prop) (m : M A) (g : A -> M B) :
  Forall P m.1 -> (forall a, m.2 = Ok a -> Forall P (g a).1) -> Forall P (mbind g m).1.
Proof.
  intros Hm Hg. rewrite bind_eta. destruct m as [l [a|e]]; cbn in *; [|exact Hm].
  apply Forall_app; split; [exact Hm|apply Hg; reflexivity].
Qed.

Lemma elem_of_indexes_from {A} (p : A -> bool) (i : Z) (l : list A) (x : Z) :
  x ∈ indexes_from p i l <-> exists k a, l !! k = Some a /\ x = i + Z.of_nat k /\ p a = true.
Proof.
  revert i. induction l as [|a l IH]; intros i; cbn [indexes_from].
  - split; [intros H; inversion H|intros [k [b [Hk _]]]; discriminate Hk].
  - destruct (p a) eqn:Hp.
    + rewrite elem_of_cons, IH. split.
      * intros [->|[k [b [Hk [-> Hb]]]]]; [exists O, a; split; [reflexivity|split; [lia|exact Hp]]|].
        exists (S k), b. split; [exact Hk|split; [lia|exact Hb]].
      * intros [[|k] [b [Hk [-> Hb]]]]; [left; lia|right].
        exists k, b. split; [exact Hk|split; [lia|exact Hb]].
    + rewrite IH. split.
      * intros [k [b [Hk [-> Hb]]]]. exists (S k), b. split; [exact Hk|split; [lia|exact Hb]].
      * intros [[|k] [b [Hk [-> Hb]]]].
        -- cbn in Hk. injection Hk as ->. congruence.
        -- exists k, b. split; [exact Hk|split; [lia|exact Hb]].
Qed.

Lemma elem_of_indexes {A} (p : A -> bool) (l : list A) (x : Z) :
  x ∈ indexes p l <-> exists k a, l !! k = Some a /\ x = Z.of_nat k /\ p a = true.
Proof.
  unfold indexes. rewrite elem_of_indexes_from. split.
  - intros [k [a [Hk [-> Ha]]]]. exists k, a. split; [done|split; [lia|done]].
  - intros [k [a [Hk [-> Ha]]]]. exists k, a. split; [done|split; [lia|done]].
Qed.

(** A check that reports [shifted (indexes p (frows f))]. *)
Lemma reported_shifted (f : frame) (p : list string -> bool) (j : Z) :
  j ∈ shifted (indexes p (frows f)) -> SpecDefs.reported_row f (fun row => p row = true) j.
Proof.
  unfold shifted. intros Hj. apply elem_of_map_iff in Hj as [i [-> Hi]].
  apply elem_of_indexes in Hi as [k [row [Hk [-> Hp]]]].
  exists k, row. unfold shift_index. split; [exact Hk|split; [lia|exact Hp]].
Qed.

Lemma length_indexes_true {A} (i : Z) (l : list A) :
  List.length (indexes_from (fun _ => true) i l) = List.length l.
Proof. revert i. induction l as [|a l IH]; intros i; cbn; [reflexivity|]. rewrite IH. reflexivity. Qed.

Lemma lookup_indexes_true {A} (i : Z) (l : list A) (n : nat) (x : Z) :
  indexes_from (fun _ => true) i l !! n = Some x -> x = i + Z.of_nat n.
Proof.
  revert i n. induction l as [|a l IH]; intros i n H; [discriminate H|].
  destruct n as [|n]; cbn in H.
  - injection H as <-. lia.
  - apply IH in H. lia.
Qed.

Lemma elem_of_zip_indexes {A} (l : list A) (i : Z) (a : A) :
  (i, a) ∈ zip (indexes (fun _ => true) l) l -> exists k, l !! k = Some a /\ i = Z.of_nat k.
Proof.
  intros H. apply elem_of_zip_pair in H as [n [Hi Ha]].
  apply lookup_indexes_true in Hi. exists n. split; [exact Ha|lia].
Qed.

(** *** Blank cells, schema, duplicates *)

Lemma empty_cells_rows (inp : inputs) :
  SpecDefs.diag_rows_ok inp (DEmptyCells (empty_cells (csv inp))).
Proof.
  cbn [SpecDefs.diag_rows_ok]. intros c js Hc j Hj.
  unfold empty_cells in Hc. apply elem_of_filter_bool in Hc as [Hc _].
  apply elem_of_lookup_imap in Hc as [n [c' [[= -> ->] Hn]]].
  exists n. split; [exact Hn|].
  apply elem_of_map_iff in Hj as [i [-> Hi]]. apply elem_of_indexes in Hi as [k [row [Hk [-> Hp]]]].
  exists k, row. unfold shift_index. split; [exact Hk|split; [lia|]].
  apply String.eqb_eq, Hp.
Qed.

Lemma inject_config_silent (cfg : config) (orcids vendors : list string) :
  (inject_config cfg orcids vendors).1 = [].
Proof.
  unfold inject_config. apply silent_bind.
  - destruct (cfg !! "column_is_in") as [[d|]|]; reflexivity.
  - intros cfg1. destruct (cfg1 !! "multi_value_column_is_in") as [[d|]|]; reflexivity.
Qed.

Lemma require_cols_silent (f : frame) (cs : list string) : (require_cols f cs).1 = [].
Proof. induction cs as [|c cs IH]; cbn; [reflexivity|]. destruct (has_col f c); [exact IH|reflexivity]. Qed.

Lemma forallb_false_ex {A} (g : A -> bool) (l : list A) :
  forallb g l = false -> exists x, x ∈ l /\ g x = false.
Proof.
  induction l as [|x l IH]; cbn; [discriminate|].
  destruct (g x) eqn:Hx; cbn.
  - intros H. destruct (IH H) as [y [Hy Hg]]. exists y. split; [right; exact Hy|exact Hg].
  - intros _. exists x. split; [left|exact Hx].
Qed.

Lemma validate_df_rows (inp : inputs) (cfg : config) :
  (inject_config (configuration inp) (map Py.strip (creators inp) ++ ["NA"]) (vendor_names inp)).2
    = Ok cfg ->
  Forall (SpecDefs.diag_rows_ok inp) (validate_df (csv inp) cfg).1.
Proof.
  intros Hcfg. assert (Hinj : SpecDefs.injected inp = cfg)
    by (unfold SpecDefs.injected; rewrite Hcfg; reflexivity).
  unfold validate_df. rewrite bind_ok. cbn [fst]. rewrite app_nil_r.
  apply Forall_app. split; apply Forall_forall; intros d Hd;
    apply elem_of_map_iff in Hd as [[c js] [-> Hd]];
    apply elem_of_filter_bool in Hd as [Hd _];
    apply elem_of_map_iff in Hd as [[c' a] [[= <- ->] Hd]];
    apply elem_of_filter_bool in Hd as [Hd _]; apply elem_of_map_to_list in Hd;
    cbn [SpecDefs.diag_rows_ok fst snd]; rewrite Hinj; intros j Hj; exists a; (split; [exact Hd|]);
    apply elem_of_map_iff in Hj as [i [-> Hi]];
    apply elem_of_indexes in Hi as [k [row [Hk [-> Hp]]]];
    exists k, row; unfold shift_index; (split; [exact Hk|split; [lia|]]).
  - apply negb_true_iff, Hp.
  - apply negb_true_iff, forallb_false_ex in Hp as [t [Ht Hf]].
    exists t. split; [exact Ht|exact Hf].
Qed.

Lemma lookup_map_opt {A B} (g : A -> B) (l : list A) (n : nat) :
  map g l !! n = option_map g (l !! n).
Proof. revert n. induction l as [|a l IH]; intros [|n]; cbn; try reflexivity. apply IH. Qed.

Lemma count_zip_key (g : list string -> list string) (key : list string)
    (l : list (list string)) (idx : list Z) :
  List.length idx = List.length l ->
  List.length (List.filter (fun q => bool_decide (q.1 = key)) (zip (map g l) idx))
  = List.length (List.filter (fun r => bool_decide (g r = key)) l).
Proof.
  revert idx. induction l as [|a l IH]; intros [|i idx] Hlen; cbn in *; try lia.
  destruct (bool_decide (g a = key)); cbn; rewrite IH by lia; reflexivity.
Qed.

Lemma elem_of_keyed_rows (f : frame) (key : list string) (i : Z) :
  (key, i) ∈ keyed_rows f ->
  exists k row, frows f !! k = Some row /\ i = Z.of_nat k /\ key = dup_key f row.
Proof.
  unfold keyed_rows. intros H. apply elem_of_zip_pair in H as [n [Hk Hi]].
  rewrite lookup_map_opt in Hk. destruct (frows f !! n) as [row|] eqn:Hn; [|discriminate Hk].
  injection Hk as <-. apply lookup_indexes_true in Hi. exists n, row. split; [done|split; [lia|done]].
Qed.

Lemma duplicates_rows (inp : inputs) :
  SpecDefs.diag_rows_ok inp (DDuplicates (map shifted (duplicated_indexes (csv inp)))).
Proof.
  cbn [SpecDefs.diag_rows_ok]. intros g Hg j Hj.
  apply elem_of_map_iff in Hg as [g0 [-> Hg0]].
  unfold duplicated_indexes in Hg0. apply elem_of_map_iff in Hg0 as [key [-> _]].
  unfold shifted in Hj. apply elem_of_map_iff in Hj as [i [-> Hi]].
  apply elem_of_map_iff in Hi as [[key' i'] [Heq Hp]]. cbn in Heq. subst i'.
  apply elem_of_filter_bool in Hp as [Hp _].
  unfold all_duplicates in Hp. apply elem_of_filter_bool in Hp as [Hkr Hcount].
  apply bool_decide_eq_true in Hcount. cbn [fst] in Hcount.
  destruct (elem_of_keyed_rows _ _ _ Hkr) as [k [row [Hk [-> ->]]]].
  exists k, row. unfold shift_index. split; [exact Hk|split; [lia|]].
  unfold keyed_rows in Hcount. rewrite count_zip_key in Hcount by apply length_indexes_true.
  exact Hcount.
Qed.

(** *** Supporting material and images *)

Lemma orcid_diags_rows (inp : inputs) f fs dp tc o :
  Forall (SpecDefs.diag_rows_ok inp) (orcid_diags f fs dp tc o).
Proof.
  unfold orcid_diags. destruct (fs_lookup fs (md_path dp o)); [|repeat constructor].
  destruct (parse_doc (fcontent f0)).2; [|repeat constructor].
  destruct (tables_differ _ _); repeat constructor.
Qed.

Lemma group_images_rows (f : frame) (t c fn cap : string) (i : Z) :
  (fn, cap, i) ∈ group_images f (group_rows f t c) ->
  SpecDefs.reported_row f (fun row => exists n, image_files f row !! n = Some fn /\
                                                captions f row !! n = Some cap) (i + shift_index).
Proof.
  unfold group_images. intros H. apply elem_of_concat_map in H as [[i' row] [Hr Hx]].
  apply elem_of_map_iff in Hx as [[fn' cap'] [[= -> -> ->] Hz]].
  apply elem_of_zip_pair in Hz as [n [Hn Hc]].
  unfold group_rows in Hr. apply elem_of_filter_bool in Hr as [Hr _].
  apply elem_of_zip_indexes in Hr as [k [Hk ->]].
  exists k, row. unfold shift_index. split; [exact Hk|split; [lia|eauto]].
Qed.

Lemma supporting_material_rows (inp : inputs) (tc : string * string) :
  Forall (SpecDefs.diag_rows_ok inp) (validate_supporting_material (csv inp) tc (root inp) (files inp)).1.
Proof.
  destruct tc as [t c]. unfold validate_supporting_material. apply forall_bind.
  - rewrite sm_loop_eq. cbn [fst]. apply Forall_forall. intros d Hd.
    apply elem_of_concat_map in Hd as [o [_ Hd]].
    exact (proj1 (Forall_forall _ _) (orcid_diags_rows inp _ _ _ _ o) d Hd).
  - intros st Hst. rewrite sm_loop_eq in Hst. injection Hst as Hst.
    destruct (st_images st) as [|x imgs] eqn:Himg; [constructor|].
    destruct (st_last st) as [p|]; [|constructor].
    apply forall_bind; [|intros; constructor].
    apply mapM_diags. intros [[fn cap] i] Hx. repeat constructor. cbn [SpecDefs.diag_rows_ok].
    rewrite <- Himg, <- Hst in Hx. apply fold_images in Hx as [Hx _]. cbn [st_images] in Hx.
    exact (group_images_rows _ _ _ _ _ _ Hx).
Qed.

Lemma validate_images_rows (inp : inputs) :
  Forall (SpecDefs.diag_rows_ok inp) (validate_images (csv inp) (root inp) (files inp)).1.
Proof.
  unfold validate_images. cbv zeta. case_bool_decide.
  - repeat constructor. cbn [SpecDefs.diag_rows_ok]. intros j Hj. apply reported_shifted, Hj.
  - apply forall_bind.
    { unfold when. case_bool_decide; repeat constructor. cbn [SpecDefs.diag_rows_ok].
      intros j p Hp. apply elem_of_missing_files in Hp as [k [row [n [h [Hk [-> [Hn [_ Hf]]]]]]]].
      exists k, row. unfold shift_index. split; [exact Hk|split; [lia|]].
      split; [eapply list_elem_of_lookup_2; exact Hn|exact Hf]. }
    intros _ _. apply forall_bind.
    { unfold when. case_bool_decide; repeat constructor. cbn [SpecDefs.diag_rows_ok].
      intros j p Hp. apply elem_of_mismatched_files in Hp as [k [row [n [h [fl [Hk [-> Hrest]]]]]]].
      exists k, row. unfold shift_index. split; [exact Hk|split; [lia|]]. exists n, h, fl. exact Hrest. }
    intros _ _. case_bool_decide; [constructor|]. case_bool_decide; repeat constructor.
Qed.

(** C9: every row number printed by [validate_reagent_resources] is the
    zero-based index of a data row plus 2, for a row that violates the
    check that prints it (so a violation of the first data row is reported
    as row 2); the disjointness check prints no row numbers, it raises. *)
Theorem C9_row_numbers_shifted (inp : inputs) :
  Forall (SpecDefs.diag_rows_ok inp) (validate_reagent_resources inp).1.
Proof.
  unfold validate_reagent_resources. cbv zeta.
  case_bool_decide; [repeat constructor; apply empty_cells_rows|].
  apply forall_bind; [rewrite inject_config_silent; constructor|]. intros cfg Hcfg.
  apply forall_bind; [apply validate_df_rows, Hcfg|]. intros r _.
  case_bool_decide; [constructor|].
  apply forall_bind; [rewrite require_cols_silent; constructor|]. intros _ _.
  case_bool_decide; [repeat constructor; apply duplicates_rows|].
  case_bool_decide; [constructor|].
  case_bool_decide; [repeat constructor; cbn [SpecDefs.diag_rows_ok]; intros j Hj;
                     apply reported_shifted, Hj|].
  case_bool_decide; [repeat constructor; cbn [SpecDefs.diag_rows_ok]; intros j Hj;
                     apply reported_shifted, Hj|].
  case_bool_decide; [constructor|].
  apply forall_bind; [rewrite require_cols_silent; constructor|]. intros _ _.
  apply forall_bind; [rewrite require_cols_silent; constructor|]. intros _ _.
  apply forall_bind.
  { apply mapM_diags. intros tc _. apply supporting_material_rows. }
  intros results _.
  destruct (existsb _ results); [constructor|].
  case_bool_decide; [repeat constructor|].
  apply validate_images_rows.
Qed.

(* ------------------------------------------------------------------ *)
(** ** The checks of [validate_reagent_resources] as gates *)

Lemma bind_nil_ok {A B} (a : A) (g : A -> M B) : mbind g (([], Ok a) : M A) = g a.
Proof. cbn. destruct (g a). reflexivity. Qed.

Lemma inject_config_eq (cfg cfg' : config) (orcids vendors : list string) :
  (inject_config cfg orcids vendors).2 = Ok cfg' -> inject_config cfg orcids vendors = ([], Ok cfg').
Proof.
  intros H. pose proof (inject_config_silent cfg orcids vendors) as Hs.
  destruct (inject_config cfg orcids vendors). cbn in *. subst. reflexivity.
Qed.

Lemma validate_df_zero (f : frame) (cfg : config) :
  (validate_df f cfg).2 = Ok 0 -> validate_df f cfg = ([], Ok 0).
Proof.
  unfold validate_df. rewrite bind_ok. cbn [fst snd mret M_ret]. rewrite app_nil_r.
  case_bool_decide as Hv; [|discriminate]. destruct Hv as [-> ->]. reflexivity.
Qed.

Lemma require_cols_ok (f : frame) (cs : list string) :
  forallb (has_col f) cs = true -> require_cols f cs = ([], Ok tt).
Proof.
  induction cs as [|c cs IH]; cbn; [reflexivity|].
  destruct (has_col f c); cbn; [exact IH|discriminate].
Qed.

Lemma lookup_indexes_true_some {A} (i : Z) (l : list A) (k : nat) :
  (k < List.length l)%nat -> indexes_from (fun _ => true) i l !! k = Some (i + Z.of_nat k).
Proof.
  revert i k. induction l as [|a l IH]; intros i k Hk; cbn in Hk; [lia|].
  destruct k as [|k]; cbn; [f_equal; lia|]. rewrite IH by lia. f_equal. lia.
Qed.

Lemma all_reported_shifted (f : frame) (p : list string -> bool) :
  SpecDefs.all_reported f (fun row => p row = true) (shifted (indexes p (frows f))).
Proof.
  intros j. split; [apply reported_shifted|].
  intros [k [row [Hk [-> Hp]]]]. unfold shifted. apply elem_of_map_iff.
  exists (Z.of_nat k). split; [unfold shift_index; lia|].
  apply elem_of_indexes. exists k, row. done.
Qed.

Lemma blank_cells_complete (f : frame) : SpecDefs.blank_cells_reported f (empty_cells f).
Proof.
  intros n c k row Hc Hk Hb.
  assert (Hj : Z.of_nat k + 2 ∈ map (Z.add shift_index)
                 (indexes (fun row => String.eqb (Py.strip (nth n row EmptyString)) EmptyString) (frows f))).
  { apply elem_of_map_iff. exists (Z.of_nat k). split; [unfold shift_index; lia|].
    apply elem_of_indexes. exists k, row. split; [exact Hk|split; [reflexivity|]].
    apply String.eqb_eq, Hb. }
  eexists. split; [|exact Hj]. unfold empty_cells. apply elem_of_filter_bool. split.
  - apply elem_of_lookup_imap. exists n, c. split; [reflexivity|exact Hc].
  - apply bool_decide_eq_true. cbn [snd]. intros He. rewrite He in Hj. inversion Hj.
Qed.

Lemma elem_of_insert_key (x k : list string) (ks : list (list string)) :
  x ∈ insert_key k ks <-> x = k \/ x ∈ ks.
Proof.
  induction ks as [|k' ks IH]; cbn.
  - rewrite elem_of_cons. reflexivity.
  - case_bool_decide as E.
    + subst k'. rewrite elem_of_cons. tauto.
    + destruct (key_ltb k k').
      * rewrite elem_of_cons. reflexivity.
      * rewrite !elem_of_cons, IH. tauto.
Qed.

Lemma elem_of_foldr_insert_key (x : list string) (l : list (list string)) :
  x ∈ foldr insert_key [] l <-> x ∈ l.
Proof.
  induction l as [|k l IH]; cbn; [reflexivity|].
  rewrite elem_of_insert_key, elem_of_cons, IH. reflexivity.
Qed.

Lemma duplicates_complete (f : frame) :
  SpecDefs.duplicates_reported f (map shifted (duplicated_indexes f)).
Proof.
  intros k row Hk Hcount.
  assert (Hlt : (k < List.length (frows f))%nat) by (apply lookup_lt_is_Some_1; eauto).
  assert (Hkr : (dup_key f row, Z.of_nat k) ∈ keyed_rows f).
  { unfold keyed_rows. apply elem_of_zip_pair. exists k. split.
    - rewrite lookup_map_opt, Hk. reflexivity.
    - unfold indexes. rewrite lookup_indexes_true_some by exact Hlt. f_equal. }
  assert (Hd : (dup_key f row, Z.of_nat k) ∈ all_duplicates f).
  { unfold all_duplicates. apply elem_of_filter_bool. split; [exact Hkr|].
    apply bool_decide_eq_true. cbn [fst]. unfold keyed_rows.
    rewrite count_zip_key by apply length_indexes_true. exact Hcount. }
  exists (shifted (map snd (List.filter (fun p => bool_decide (p.1 = dup_key f row)) (all_duplicates f)))).
  split.
  - apply elem_of_map_iff. eexists. split; [reflexivity|].
    unfold duplicated_indexes. apply elem_of_map_iff. exists (dup_key f row). split; [reflexivity|].
    apply elem_of_foldr_insert_key, elem_of_map_iff. exists (dup_key f row, Z.of_nat k). done.
  - unfold shifted. apply elem_of_map_iff. exists (Z.of_nat k). split; [unfold shift_index; lia|].
    apply elem_of_map_iff. exists (dup_key f row, Z.of_nat k). split; [reflexivity|].
    apply elem_of_filter_bool. split; [exact Hd|]. apply bool_decide_eq_true. reflexivity.
Qed.

Lemma validate_df_shape (f : frame) (cfg : config) :
  exists l z, validate_df f cfg = (l, Ok z).
Proof. unfold validate_df. rewrite bind_ok. eexists _, _. reflexivity. Qed.

(** C2 (as stated, refuted): a row with a blank cell whose Contributor is
    in neither Agree nor Disagree is reported for the blank cell only; the
    contributor check does not run. *)
Lemma C2_blank_cell_hides_contributor_check :
  validate_reagent_resources Inputs.blank_and_contributor = ([DEmptyCells [("Vendor", [2])]], Ok 1) /\
  indexes (contributor_missing (csv Inputs.blank_and_contributor))
          (frows (csv Inputs.blank_and_contributor)) = [0].
Proof. split; vm_compute; reflexivity. Qed.

Ltac gate_prefix inp cfg Hc Hv Hcols :=
  rewrite (bool_decide_eq_false_2 (empty_cells (csv inp) <> [])) by tauto;
  rewrite (inject_config_eq _ _ _ _ Hc), bind_nil_ok, (validate_df_zero _ _ Hv), bind_nil_ok;
  rewrite (bool_decide_eq_false_2 (0 <> 0)) by tauto;
  rewrite (require_cols_ok _ _ Hcols), bind_nil_ok.

(** C2 (amended): the checks are sequential gates. When the CSV has a blank
    cell, only the blank cells are printed, all of them, and the result is
    1; otherwise a failing schema validation ends the run with its own
    output; otherwise the first failing check among duplicate rows,
    contributor membership and cardinality prints all its offending rows
    and nothing else, and the result is 1. *)
Theorem C2_sequential_gates (inp : inputs) :
  (empty_cells (csv inp) <> [] ->
     validate_reagent_resources inp = ([DEmptyCells (empty_cells (csv inp))], Ok 1) /\
     SpecDefs.blank_cells_reported (csv inp) (empty_cells (csv inp))) /\
  (forall cfg, empty_cells (csv inp) = [] ->
     (inject_config (configuration inp) (map Py.strip (creators inp) ++ ["NA"])
                    (vendor_names inp)).2 = Ok cfg ->
     (validate_df (csv inp) cfg).2 <> Ok 0 ->
     validate_reagent_resources inp = validate_df (csv inp) cfg) /\
  (empty_cells (csv inp) = [] -> SpecDefs.schema_ok inp ->
     forallb (has_col (csv inp)) contributor_cols = true ->
     duplicated_indexes (csv inp) <> [] ->
     validate_reagent_resources inp = ([DDuplicates (map shifted (duplicated_indexes (csv inp)))], Ok 1) /\
     SpecDefs.duplicates_reported (csv inp) (map shifted (duplicated_indexes (csv inp)))) /\
  (empty_cells (csv inp) = [] -> SpecDefs.schema_ok inp ->
     forallb (has_col (csv inp)) contributor_cols = true ->
     duplicated_indexes (csv inp) = [] ->
     indexes (contributor_missing (csv inp)) (frows (csv inp)) <> [] ->
     validate_reagent_resources inp =
       ([DContributorMissing (shifted (indexes (contributor_missing (csv inp)) (frows (csv inp))))], Ok 1) /\
     SpecDefs.all_reported (csv inp) (fun row => contributor_missing (csv inp) row = true)
       (shifted (indexes (contributor_missing (csv inp)) (frows (csv inp))))) /\
  (empty_cells (csv inp) = [] -> SpecDefs.schema_ok inp ->
     forallb (has_col (csv inp)) contributor_cols = true ->
     duplicated_indexes (csv inp) = [] ->
     indexes (contributor_missing (csv inp)) (frows (csv inp)) = [] ->
     indexes (too_many_orcids (csv inp)) (frows (csv inp)) <> [] ->
     validate_reagent_resources inp =
       ([DTooManyOrcids (shifted (indexes (too_many_orcids (csv inp)) (frows (csv inp))))], Ok 1) /\
     SpecDefs.all_reported (csv inp) (fun row => too_many_orcids (csv inp) row = true)
       (shifted (indexes (too_many_orcids (csv inp)) (frows (csv inp))))).
Proof.
  unfold validate_reagent_resources. cbv zeta. split; [|split; [|split; [|split]]].
  - intros H. rewrite (bool_decide_eq_true_2 _ H). split; [reflexivity|apply blank_cells_complete].
  - intros cfg He Hc Hv.
    rewrite (bool_decide_eq_false_2 (empty_cells (csv inp) <> [])) by tauto.
    rewrite (inject_config_eq _ _ _ _ Hc), bind_nil_ok.
    destruct (validate_df_shape (csv inp) cfg) as [l [z Hz]]. rewrite Hz in *.
    assert (Hz0 : z <> 0) by (intros ->; apply Hv; reflexivity).
    rewrite bind_ok. cbn [fst snd]. rewrite (bool_decide_eq_true_2 _ Hz0). cbn. rewrite app_nil_r.
    reflexivity.
  - intros He [cfg [Hc Hv]] Hcols Hd. gate_prefix inp cfg Hc Hv Hcols.
    rewrite (bool_decide_eq_true_2 _ Hd). split; [reflexivity|apply duplicates_complete].
  - intros He [cfg [Hc Hv]] Hcols Hd Hp. gate_prefix inp cfg Hc Hv Hcols.
    rewrite Hd, (bool_decide_eq_false_2 (([] : list (list Z)) <> [])) by tauto.
    assert (Hrows : frows (csv inp) <> []) by (intros E; apply Hp; rewrite E; reflexivity).
    rewrite (bool_decide_eq_false_2 _ Hrows), (bool_decide_eq_true_2 _ Hp).
    split; [reflexivity|apply all_reported_shifted].
  - intros He [cfg [Hc Hv]] Hcols Hd Hp Hn. gate_prefix inp cfg Hc Hv Hcols.
    rewrite Hd, (bool_decide_eq_false_2 (([] : list (list Z)) <> [])) by tauto.
    assert (Hrows : frows (csv inp) <> []) by (intros E; apply Hn; rewrite E; reflexivity).
    rewrite (bool_decide_eq_false_2 _ Hrows), Hp.
    rewrite (bool_decide_eq_false_2 (shifted [] <> [])) by (cbn; tauto).
    rewrite (bool_decide_eq_true_2 _ Hn).
    split; [reflexivity|apply all_reported_shifted].
Qed.

Lemma C2_sequential_gates_witness :
  empty_cells (csv Inputs.blank_and_contributor) <> [] /\
  validate_reagent_resources Inputs.blank_and_contributor
  = ([DEmptyCells (empty_cells (csv Inputs.blank_and_contributor))], Ok 1).
Proof.
  assert (H : empty_cells (csv Inputs.blank_and_contributor) <> [])
    by (intros Hc; vm_compute in Hc; discriminate Hc).
  split; [exact H|].
  destruct (C2_sequential_gates Inputs.blank_and_contributor) as [H1 _].
  exact (proj1 (H1 H)).
Defined.

(* ------------------------------------------------------------------ *)
(** ** Valid input sets *)

(** *** Small facts *)

Lemma mem_str_iff (x : string) (l : list string) : mem_str x l = true <-> x ∈ l.
Proof.
  unfold mem_str. rewrite existsb_exists, list_elem_of_In. split.
  - intros [y [Hy E]]. apply String.eqb_eq in E. subst. exact Hy.
  - intros Hx. exists x. split; [exact Hx|apply String.eqb_refl].
Qed.










(** *** The checks pass *)


(** *** The row checks *)







(** *** Supporting material and images of a valid input *)

Lemma fold_files f fs dp tc (l : list string) (st : sm_state) :
  st_files (fold_left (orcid_step f fs dp tc) l st) = st_files st ++ map (md_path dp) l.
Proof.
  revert st. induction l as [|o l IH]; intros st; cbn [fold_left map]; [rewrite app_nil_r; reflexivity|].
  rewrite IH. cbn. rewrite <- app_assoc. reflexivity.
Qed.

Lemma in_group_target_conjugates (f : frame) (t c : string) :
  (t, c) ∈ target_conjugates f <-> SpecDefs.in_group f t c.
Proof.
  unfold target_conjugates, SpecDefs.in_group. rewrite elem_of_drop_duplicates, elem_of_map_iff.
  split.
  - intros [row [[= -> ->] Hr]]. exists row. done.
  - intros [row [Hr [<- <-]]]. exists row. done.
Qed.





Ltac not_not := let H := fresh in intros H; apply H; reflexivity.


(** *** The concrete inputs of a single consistent row *)

Ltac dec_goal := match goal with |- ?P => apply (@bool_decide_eq_true_1 P _); vm_compute; reflexivity end.







(* ------------------------------------------------------------------ *)
(** ** Further properties of the code *)

(** *** [validate_images] *)

(** [validate_images] never raises; it returns 0 having printed nothing, or
    1 having printed at least one message. *)
Theorem validate_images_outcome (f : frame) (root : string) (fs : list (string * file)) :
  exists l z, validate_images f root fs = (l, Ok z) /\ ((z = 0 /\ l = []) \/ (z = 1 /\ l <> [])).
Proof.
  unfold validate_images, when. cbv zeta.
  repeat (case_bool_decide; cbn [mbind M_bind mret M_ret emit]);
    (eexists _, _; split; [reflexivity|]); cbn;
    first [left; split; reflexivity | right; split; [reflexivity|discriminate] | exfalso; tauto].
Qed.

(** [validate_images] passes, with status 0 and no message, exactly when
    every row lists as many captions and hashes as image files, no listed
    file is missing, no listed file has another hash and no other file
    (.md and .DS_Store files aside) lies under the root. *)
Theorem validate_images_pass_iff (f : frame) (root : string) (fs : list (string * file)) :
  validate_images f root fs = ([], Ok 0) <->
  indexes (count_mismatch f) (frows f) = [] /\ missing_files f root fs = [] /\
  mismatched_files f root fs = [] /\ superfluous_images f root fs = [].
Proof.
  split.
  - unfold validate_images, when. cbv zeta. intros H.
    destruct (indexes (count_mismatch f) (frows f)) as [|b bs];
      [|rewrite (bool_decide_eq_true_2 (b :: bs <> [])) in H by discriminate; discriminate H].
    rewrite (bool_decide_eq_false_2 ([] <> [])) in H by not_not.
    destruct (missing_files f root fs) as [|m ms].
    2: { rewrite (bool_decide_eq_true_2 (m :: ms <> [])) in H by discriminate.
         cbv beta iota delta [emit] in H. rewrite bind_ok in H. discriminate H. }
    rewrite (bool_decide_eq_false_2 ([] <> [])) in H by not_not.
    cbv beta iota delta [mret M_ret] in H. rewrite bind_nil_ok in H.
    destruct (mismatched_files f root fs) as [|m ms].
    2: { rewrite (bool_decide_eq_true_2 (m :: ms <> [])) in H by discriminate.
         cbv beta iota delta [emit] in H. rewrite bind_ok in H. discriminate H. }
    rewrite (bool_decide_eq_false_2 ([] <> [])) in H by not_not.
    cbv beta iota delta [mret M_ret] in H. rewrite bind_nil_ok in H.
    rewrite bool_decide_eq_false_2 in H by (intros [E|E]; apply E; reflexivity).
    destruct (superfluous_images f root fs) as [|s ss];
      [|rewrite (bool_decide_eq_true_2 (s :: ss <> [])) in H by discriminate; discriminate H].
    repeat split.
  - intros [H1 [H2 [H3 H4]]]. unfold validate_images. cbv zeta. rewrite H1, H2, H3, H4.
    reflexivity.
Qed.

(** A listed image file is never reported both as missing and as having
    the wrong hash: a missing file has no hash to compare. *)
Theorem missing_not_mismatched (f : frame) (root : string) (fs : list (string * file))
    (j j' : Z) (p : string) :
  (j, p) ∈ missing_files f root fs -> (j', p) ∉ mismatched_files f root fs.
Proof.
  intros Hm Hx.
  apply elem_of_missing_files in Hm as [k [row [n [h [_ [_ [_ [_ Hf]]]]]]]].
  apply elem_of_mismatched_files in Hx as [k' [row' [n' [h' [fl [_ [_ [_ [_ [Hl _]]]]]]]]]].
  unfold is_file in Hf. rewrite Hl in Hf. discriminate.
Qed.

Lemma missing_not_mismatched_witness :
  (2, Inputs.img_path) ∈ missing_files (csv Inputs.ok_input) "/data" [] /\
  (2, Inputs.img_path) ∉ mismatched_files (csv Inputs.ok_input) "/data" [].
Proof.
  split; [dec_goal|].
  apply (missing_not_mismatched (csv Inputs.ok_input) "/data" [] 2 2 Inputs.img_path). dec_goal.
Defined.

(** *** [validate_supporting_material] *)

Lemma mapM_unreferenced (p : string) (imgs : list (string * string * Z)) :
  mapM (fun '(fn, cap, i) => emit (DImageUnreferenced cap fn (i + shift_index) p)) imgs
  = (map (fun '(fn, cap, i) => DImageUnreferenced cap fn (i + shift_index) p) imgs,
     Ok (map (fun _ => tt) imgs)).
Proof.
  induction imgs as [|[[fn cap] i] imgs IH]; cbn [mapM]; [reflexivity|].
  rewrite IH. cbn. rewrite app_nil_r. reflexivity.
Qed.

Lemma fold_last f fs dp tc (l : list string) (st : sm_state) :
  st_last (fold_left (orcid_step f fs dp tc) l st) =
  match last l with Some o => Some (md_path dp o) | None => st_last st end.
Proof.
  revert st. induction l as [|o l IH]; intros st; [reflexivity|].
  cbn [fold_left]. rewrite IH. destruct l as [|o' l]; [reflexivity|].
  change (last (o :: o' :: l)) with (last (o' :: l)).
  destruct (last (o' :: l)) eqn:E; [reflexivity|apply last_None in E; discriminate E].
Qed.

Lemma fold_status_iff f fs dp tc (l : list string) (st : sm_state) :
  st_status st = 0 ->
  (st_status (fold_left (orcid_step f fs dp tc) l st) = 0 \/
   st_status (fold_left (orcid_step f fs dp tc) l st) = 1) /\
  (st_status (fold_left (orcid_step f fs dp tc) l st) = 0 <->
   List.concat (map (orcid_diags f fs dp tc) l) = []).
Proof.
  intros H0. split; [|split].
  - assert (H01 : st_status st = 0 \/ st_status st = 1) by (left; exact H0). clear H0.
    revert st H01. induction l as [|o l IH]; intros st H01; [exact H01|].
    cbn [fold_left]. apply IH. cbn. case_bool_decide; [exact H01|right; reflexivity].
  - intros Hs. destruct (List.concat (map (orcid_diags f fs dp tc) l)) eqn:E; [reflexivity|exfalso].
    assert (Hx : d ∈ List.concat (map (orcid_diags f fs dp tc) l)) by (rewrite E; left).
    apply elem_of_concat_map in Hx as [o [Ho Hx]].
    assert (Hne : orcid_diags f fs dp tc o <> []) by (intros E'; rewrite E' in Hx; inversion Hx).
    rewrite (fold_status_hit f fs dp tc l st o Ho Hne) in Hs. discriminate.
  - intros Hc. apply fold_status_zero; [exact H0|]. intros o Ho.
    destruct (orcid_diags f fs dp tc o) as [|d ds] eqn:E; [reflexivity|exfalso].
    assert (Hx : d ∈ List.concat (map (orcid_diags f fs dp tc) l)).
    { apply elem_of_concat_map. exists o. rewrite E. split; [exact Ho|left]. }
    rewrite Hc in Hx. inversion Hx.
Qed.

(** [validate_supporting_material] as the loop state leaves it. *)
Lemma vsm_shape (f : frame) (t c root : string) (fs : list (string * file)) :
  let dp := data_path root t c in
  let tc := group_rows f t c in
  let st := fold_left (orcid_step f fs dp tc) (group_orcids f tc)
              {| st_status := 0; st_images := group_images f tc; st_files := []; st_last := None |} in
  let D := List.concat (map (orcid_diags f fs dp tc) (group_orcids f tc)) in
  validate_supporting_material f (t, c) root fs =
  match st_images st with
  | [] => (D, Ok (st_files st, st_status st))
  | imgs =>
      match st_last st with
      | None => (D, Exc (NameError "md_file_path"))
      | Some p => (D ++ map (fun '(fn, cap, i) => DImageUnreferenced cap fn (i + shift_index) p) imgs,
                   Ok (st_files st, 1))
      end
  end.
Proof.
  cbv zeta. unfold validate_supporting_material. rewrite sm_loop_eq, bind_ok.
  destruct (st_images _) as [|img imgs]; [cbn; rewrite app_nil_r; reflexivity|].
  destruct (st_last _) as [p|]; [|cbn; rewrite app_nil_r; reflexivity].
  rewrite mapM_unreferenced. cbn. rewrite !app_nil_r. reflexivity.
Qed.

Lemma row_in_zip_indexes {A} (l : list A) (i : Z) (x : A) :
  x ∈ l -> exists j, (j, x) ∈ zip (indexes_from (fun _ => true) i l) l.
Proof.
  revert i. induction l as [|y l IH]; intros i Hx; [inversion Hx|].
  cbn. apply elem_of_cons in Hx as [->|Hx].
  - exists i. left.
  - destruct (IH (i + 1) Hx) as [j Hj]. exists j. right. exact Hj.
Qed.

(** When [validate_supporting_material] returns, its status is 0 or 1, and
    it is 0 exactly when it printed nothing. *)
Theorem vsm_status_silent (f : frame) (t c root : string) (fs : list (string * file))
    (l : list diag) (files : list string) (s : Z) :
  validate_supporting_material f (t, c) root fs = (l, Ok (files, s)) ->
  (s = 0 \/ s = 1) /\ (s = 0 <-> l = []).
Proof.
  rewrite vsm_shape. cbv zeta.
  destruct (fold_status_iff f fs (data_path root t c) (group_rows f t c) (group_orcids f (group_rows f t c))
              {| st_status := 0; st_images := group_images f (group_rows f t c); st_files := [];
                 st_last := None |} eq_refl) as [H01 Hiff].
  destruct (st_images _) as [|img imgs].
  - intros H. injection H as <- _ <-. split; [exact H01|exact Hiff].
  - destruct (st_last _) as [p|]; intros H; [|discriminate H].
    injection H as <- _ <-. split; [right; reflexivity|].
    split; [discriminate|]. intros E. apply app_eq_nil in E as [_ E]. discriminate E.
Qed.

Lemma vsm_status_silent_witness :
  validate_supporting_material (csv Inputs.ok_input) ("CD20", "AF488") "/data" (files Inputs.ok_input)
    = ([], Ok ([Inputs.doc_path], 0)) /\
  ((0 = 0 \/ 0 = 1) /\ (0 = 0 <-> @nil diag = [])).
Proof.
  split; [vm_compute; reflexivity|].
  apply (vsm_status_silent (csv Inputs.ok_input) "CD20" "AF488" "/data" (files Inputs.ok_input) [] [Inputs.doc_path] 0).
  vm_compute. reflexivity.
Defined.

(** When [validate_supporting_material] returns, the list of documents it
    returns holds the expected path of every ORCID of the group, in the
    order checked, whether or not the document exists. *)
Theorem vsm_files_expected (f : frame) (t c root : string) (fs : list (string * file))
    (l : list diag) (files : list string) (s : Z) :
  validate_supporting_material f (t, c) root fs = (l, Ok (files, s)) ->
  files = map (md_path (data_path root t c)) (group_orcids f (group_rows f t c)).
Proof.
  rewrite vsm_shape. cbv zeta. rewrite fold_files.
  destruct (st_images _) as [|img imgs].
  - intros H. injection H as _ <- _. reflexivity.
  - destruct (st_last _) as [p|]; intros H; [|discriminate H]. injection H as _ <-. reflexivity.
Qed.

Lemma vsm_files_expected_witness :
  validate_supporting_material (csv Inputs.ok_input) ("CD20", "AF488") "/data" []
    = ([DDocMissing Inputs.doc_path; DImageUnreferenced "Fig1" "CD20_AF488/img1.png" 2 Inputs.doc_path],
       Ok ([Inputs.doc_path], 1)) /\
  [Inputs.doc_path] = map (md_path (data_path "/data" "CD20" "AF488"))
                        (group_orcids (csv Inputs.ok_input) (group_rows (csv Inputs.ok_input) "CD20" "AF488")).
Proof.
  split; [vm_compute; reflexivity|].
  apply (vsm_files_expected (csv Inputs.ok_input) "CD20" "AF488" "/data" []
           [DDocMissing Inputs.doc_path; DImageUnreferenced "Fig1" "CD20_AF488/img1.png" 2 Inputs.doc_path]
           [Inputs.doc_path] 1).
  vm_compute. reflexivity.
Defined.



(** Once every row's Contributor is in its parsed Agree or Disagree list
    (the check of lines 143-155), every (target, conjugate) group of the
    CSV has an ORCID, so [validate_supporting_material] returns normally for
    each of them. *)
Theorem vsm_returns_after_contributor_check (f : frame) (tc : string * string) (root : string)
    (fs : list (string * file)) :
  indexes (contributor_missing f) (frows f) = [] -> tc ∈ target_conjugates f ->
  exists l r, validate_supporting_material f tc root fs = (l, Ok r).
Proof.
  destruct tc as [t c]. intros Hc Htc.
  apply in_group_target_conjugates in Htc as [row [Hr [Ht Hcj]]].
  assert (Hne : group_orcids f (group_rows f t c) <> []).
  { unfold indexes in Hc. pose proof (proj1 (indexes_from_nil _ _ _) Hc row Hr) as Hc0. clear Hc. rename Hc0 into Hc. unfold contributor_missing in Hc.
    apply negb_false_iff, mem_str_iff in Hc.
    destruct (row_in_zip_indexes (frows f) 0 row Hr) as [j Hj].
    assert (Hg : (j, row) ∈ group_rows f t c).
    { unfold group_rows. apply elem_of_filter_bool. split; [exact Hj|].
      cbn [snd]. rewrite Ht, Hcj, !String.eqb_refl. reflexivity. }
    intros E. assert (Ho : get f "Contributor" row ∈ group_orcids f (group_rows f t c)).
    { apply elem_of_group_orcids. exists j, row. split; [exact Hg|].
      apply elem_of_app in Hc. exact Hc. }
    rewrite E in Ho. inversion Ho. }
  rewrite vsm_shape. cbv zeta. rewrite fold_last.
  destruct (last (group_orcids f (group_rows f t c))) as [o|] eqn:El.
  - destruct (st_images _); eexists _, _; reflexivity.
  - apply last_None in El. contradiction.
Qed.

Lemma vsm_returns_after_contributor_check_witness :
  indexes (contributor_missing (csv Inputs.ok_input)) (frows (csv Inputs.ok_input)) = [] /\
  ("CD20", "AF488") ∈ target_conjugates (csv Inputs.ok_input) /\
  exists l r, validate_supporting_material (csv Inputs.ok_input) ("CD20", "AF488") "/data" [] = (l, Ok r).
Proof.
  split; [vm_compute; reflexivity|]. split; [dec_goal|].
  apply vsm_returns_after_contributor_check; [vm_compute; reflexivity|dec_goal].
Defined.

(** *** ORCID extraction from a document cell *)

Lemma findall_fuel_sound (fuel : nat) (s : list ascii) (o : string) :
  o ∈ findall_fuel fuel s ->
  exists s', match_shape orcid_shape s' = true /\ o = string_of_list_ascii (take 19 (drop 1 s')).
Proof.
  revert s. induction fuel as [|fuel IH]; intros s Ho; [inversion Ho|].
  destruct s as [|a s]; [inversion Ho|]. cbn [findall_fuel] in Ho.
  destruct (match_shape orcid_shape (a :: s)) eqn:E.
  - apply elem_of_cons in Ho as [->|Ho]; [exists (a :: s); split; [exact E|reflexivity]|].
    exact (IH _ Ho).
  - exact (IH _ Ho).
Qed.

(** Every value extracted from a Contributor/Agree/Disagree cell of a
    document (the [re.findall] of lines 457-471 with [s[1:-1]]) has 19
    characters and, put back between brackets, matches the ORCID pattern
    [\[\d{4}-\d{4}-\d{4}-\d{3}[\dX]\]]. *)
Theorem findall_orcids_shape (x o : string) :
  o ∈ findall_orcids x ->
  String.length o = 19%nat /\
  match_shape orcid_shape (list_ascii_of_string (String.append "[" (String.append o "]"))) = true.
Proof.
  unfold findall_orcids. intros Ho. apply findall_fuel_sound in Ho as [s [Hs ->]].
  do 21 (destruct s as [|? s];
    [cbn -[is_digit] in Hs; repeat rewrite andb_false_r in Hs; discriminate Hs|]).
  split; [reflexivity|].
  cbv -[is_digit andb orb] in Hs |- *. rewrite !andb_true_iff in Hs |- *. tauto.
Qed.

Lemma findall_orcids_shape_witness :
  Inputs.A ∈ findall_orcids "[0000-0001-9561-4256](https://orcid.org)" /\
  (String.length Inputs.A = 19%nat /\
   match_shape orcid_shape (list_ascii_of_string (String.append "[" (String.append Inputs.A "]"))) = true).
Proof.
  split; [dec_goal|]. apply (findall_orcids_shape "[0000-0001-9561-4256](https://orcid.org)"). dec_goal.
Defined.

(** Round trip: a 19-character ORCID written between brackets, as the
    documents display it, is extracted back as itself and nothing else. *)
Theorem findall_orcids_bracketed (o : string) :
  String.length o = 19%nat ->
  match_shape orcid_shape (list_ascii_of_string (String.append "[" (String.append o "]"))) = true ->
  findall_orcids (String.append "[" (String.append o "]")) = [o].
Proof.
  intros Hl Hs.
  do 19 (destruct o as [|? o]; [discriminate Hl|]). destruct o; [|discriminate Hl].
  unfold findall_orcids. cbv -[is_digit match_shape orcid_shape] in Hs |- *. rewrite Hs. reflexivity.
Qed.

Lemma findall_orcids_bracketed_witness :
  String.length Inputs.A = 19%nat /\
  match_shape orcid_shape (list_ascii_of_string (String.append "[" (String.append Inputs.A "]"))) = true /\
  findall_orcids (String.append "[" (String.append Inputs.A "]")) = [Inputs.A].
Proof.
  split; [reflexivity|]. split; [vm_compute; reflexivity|].
  apply findall_orcids_bracketed; [reflexivity|vm_compute; reflexivity].
Defined.

(** *** Reading a supporting document *)

Lemma index_of_None (x : string) (l : list string) : x ∉ l -> Py.index_of x l = None.
Proof.
  induction l as [|y l IH]; intros Hx; [reflexivity|]. cbn.
  destruct (String.eqb x y) eqn:E.
  - apply String.eqb_eq in E. subst. exfalso. apply Hx. left.
  - rewrite IH; [reflexivity|]. intros H. apply Hx. right. exact H.
Qed.

Lemma index_of_Some (x : string) (l : list string) : x ∈ l -> exists i, Py.index_of x l = Some i.
Proof.
  induction l as [|y l IH]; intros Hx; [inversion Hx|]. cbn.
  destruct (String.eqb x y) eqn:E; [eexists; reflexivity|].
  apply elem_of_cons in Hx as [->|Hx]; [rewrite String.eqb_refl in E; discriminate E|].
  destruct (IH Hx) as [i ->]. eexists. reflexivity.
Qed.

(** A document without a (stripped) line "# Configurations" makes the
    parse raise [ValueError] at line 430; one that has it but no line
    "# Publications" raises [ValueError] at line 431. Nothing is printed. *)
Theorem parse_doc_missing_sections (content : string) :
  ("# Configurations" ∉ doc_lines content ->
     parse_doc content = ([], Exc (ValueError "# Configurations"))) /\
  ("# Configurations" ∈ doc_lines content -> "# Publications" ∉ doc_lines content ->
     parse_doc content = ([], Exc (ValueError "# Publications"))).
Proof.
  split.
  - intros H. unfold parse_doc, index_or_raise. cbv zeta. rewrite (index_of_None _ _ H). reflexivity.
  - intros H1 H2. unfold parse_doc, index_or_raise. cbv zeta.
    destruct (index_of_Some _ _ H1) as [i ->]. rewrite (index_of_None _ _ H2). reflexivity.
Qed.

Lemma parse_doc_missing_sections_witness :
  (("# Configurations" ∉ doc_lines "hello") /\
   parse_doc "hello" = ([], Exc (ValueError "# Configurations"))) /\
  ("# Configurations" ∈ doc_lines (Inputs.unlines ["# Configurations"; "x"]) /\
   ("# Publications" ∉ doc_lines (Inputs.unlines ["# Configurations"; "x"])) /\
   parse_doc (Inputs.unlines ["# Configurations"; "x"]) = ([], Exc (ValueError "# Publications"))).
Proof.
  split.
  - split; [dec_goal|]. apply (proj1 (parse_doc_missing_sections "hello")). dec_goal.
  - split; [dec_goal|]. split; [dec_goal|].
    apply (proj2 (parse_doc_missing_sections (Inputs.unlines ["# Configurations"; "x"]))); dec_goal.
Defined.

(** An exception raised while parsing the configurations table of an
    existing document that was read (lines 412-498) is caught: the
    iteration prints one message with the path and the exception, sets the
    status to 1, keeps the path in the list of documents, and the image
    entries the document mentions are still removed, the filter of lines
    416-425 running before the parse; the loop goes on. *)
Theorem process_orcid_catches (f : frame) (fs : list (string * file)) (dp : string)
    (tc : list (Z * list string)) (st : sm_state) (o : string) (fl : file) (e : exn) :
  fs_lookup fs (md_path dp o) = Some fl -> (parse_doc (fcontent fl)).2 = Exc e ->
  process_orcid f fs dp tc st o =
  ([DDocException (md_path dp o) e],
   Ok {| st_status := 1; st_images := unmatched_images (fcontent fl) (st_images st);
         st_files := st_files st ++ [md_path dp o]; st_last := Some (md_path dp o) |}).
Proof.
  intros Hl He. rewrite process_orcid_eq. unfold orcid_step, orcid_diags. cbv zeta.
  rewrite Hl, He. rewrite bool_decide_eq_false_2 by discriminate. reflexivity.
Qed.

Lemma process_orcid_catches_witness :
  let fs := [(Inputs.doc_path, {| fcontent := "hello"; fdigest := "d41d" |})] in
  let st := {| st_status := 0; st_images := []; st_files := []; st_last := None |} in
  fs_lookup fs (md_path "/data/CD20_AF488" Inputs.A) = Some {| fcontent := "hello"; fdigest := "d41d" |} /\
  (parse_doc "hello").2 = Exc (ValueError "# Configurations") /\
  process_orcid (csv Inputs.ok_input) fs "/data/CD20_AF488" [] st Inputs.A =
  ([DDocException (md_path "/data/CD20_AF488" Inputs.A) (ValueError "# Configurations")],
   Ok {| st_status := 1; st_images := unmatched_images "hello" [];
         st_files := [] ++ [md_path "/data/CD20_AF488" Inputs.A];
         st_last := Some (md_path "/data/CD20_AF488" Inputs.A) |}).
Proof.
  cbv zeta. split; [vm_compute; reflexivity|]. split; [vm_compute; reflexivity|].
  apply (process_orcid_catches (csv Inputs.ok_input) _ "/data/CD20_AF488" []
           {| st_status := 0; st_images := []; st_files := []; st_last := None |}
           Inputs.A {| fcontent := "hello"; fdigest := "d41d" |}); vm_compute; reflexivity.
Defined.

(** *** The directory name of a group *)

Lemma str_map_length (g : ascii -> ascii) (s : string) : String.length (str_map g s) = String.length s.
Proof. induction s as [|a s IH]; cbn; [reflexivity|]. rewrite IH. reflexivity. Qed.

Lemma contains_str_map_none (ch : ascii) (g : ascii -> ascii) (s : string) :
  (forall a, g a <> ch) -> Py.contains (String ch EmptyString) (str_map g s) = false.
Proof.
  intros Hg. induction s as [|a s IH]; [reflexivity|].
  cbn [str_map Py.contains]. rewrite IH, orb_false_r. cbn.
  destruct (ascii_dec ch (g a)) as [E|E]; [exfalso; apply (Hg a); symmetry; exact E|reflexivity].
Qed.

Lemma sanitize_char_idem (a : ascii) : SpecDefs.sanitize_char (SpecDefs.sanitize_char a) = SpecDefs.sanitize_char a.
Proof.
  unfold SpecDefs.sanitize_char at 2 3. destruct (existsb _ _) eqn:E; [vm_compute; reflexivity|].
  unfold SpecDefs.sanitize_char. rewrite E. reflexivity.
Qed.

(** [replace_char_list] with the invalid characters of lines 346-361 and
    "_" keeps the length of the name, leaves none of those characters in
    it, and changes nothing more when applied again. *)
Theorem replace_char_list_invalid (s : string) :
  let r := replace_char_list s invalid_chars "_" in
  String.length r = String.length s /\
  Forall (fun ch => Py.contains ch r = false) invalid_chars /\
  replace_char_list r invalid_chars "_" = r.
Proof.
  cbv zeta. rewrite !replace_char_list_sanitize, !sanitize_str_map. split; [|split].
  - apply str_map_length.
  - unfold invalid_chars.
    repeat (apply Forall_cons_2;
            [apply contains_str_map_none; intros a; unfold SpecDefs.sanitize_char;
             destruct (existsb _ _) eqn:E; [discriminate|intros ->; vm_compute in E; discriminate E]|]).
    apply Forall_nil_2.
  - rewrite str_map_compose. apply str_map_ext. apply sanitize_char_idem.
Qed.

(** *** Value-set injection *)

(** The injection of lines 95-109 changes only the "column_is_in" and
    "multi_value_column_is_in" entries of the configuration; an existing
    column_is_in dict keeps its other columns and gains Contributor and
    Vendor, an existing multi_value_column_is_in dict keeps its other
    columns and gains Agree and Disagree. *)
Theorem inject_config_keeps (cfg cfg' : config) (orcids vendors : list string) :
  (inject_config cfg orcids vendors).2 = Ok cfg' ->
  (forall k, k <> "column_is_in" -> k <> "multi_value_column_is_in" -> cfg' !! k = cfg !! k) /\
  (forall d, cfg !! "column_is_in" = Some (CfgDict d) ->
     dict_of cfg' "column_is_in" = <["Vendor" := vendors]> (<["Contributor" := orcids]> d)) /\
  (forall d, cfg !! "multi_value_column_is_in" = Some (CfgDict d) ->
     dict_of cfg' "multi_value_column_is_in" = <["Disagree" := orcids]> (<["Agree" := orcids]> d)).
Proof.
  intros H. unfold inject_config in H.
  destruct (cfg !! "column_is_in") as [[d|]|] eqn:E1;
    cbn [mbind M_bind mret M_ret raise] in H; try discriminate H;
    rewrite ?lookup_insert_ne in H by done;
    destruct (cfg !! "multi_value_column_is_in") as [[d2|]|] eqn:E2;
    cbn in H; try discriminate H; injection H as <-;
    (split; [intros k Hk1 Hk2; rewrite !lookup_insert_ne by congruence; reflexivity|]);
    split; intros dd Hd; try congruence; unfold dict_of;
    rewrite ?(lookup_insert_ne _ "multi_value_column_is_in" "column_is_in") by done;
    rewrite lookup_insert_eq; congruence.
Qed.

Lemma inject_config_keeps_witness :
  let cfg : config := {["column_is_in" := CfgDict {["Clone" := ["A1"]]}; "n_rows" := CfgOther]} in
  let cfg' : config :=
    {["multi_value_column_is_in" := CfgDict {["Agree" := ["o"]; "Disagree" := ["o"]]};
      "column_is_in" := CfgDict {["Clone" := ["A1"]; "Contributor" := ["o"]; "Vendor" := ["v"]]};
      "n_rows" := CfgOther]} in
  (inject_config cfg ["o"] ["v"]).2 = Ok cfg' /\
  ((forall k, k <> "column_is_in" -> k <> "multi_value_column_is_in" -> cfg' !! k = cfg !! k) /\
   (forall d, cfg !! "column_is_in" = Some (CfgDict d) ->
     dict_of cfg' "column_is_in" = <["Vendor" := ["v"]]> (<["Contributor" := ["o"]]> d)) /\
   (forall d, cfg !! "multi_value_column_is_in" = Some (CfgDict d) ->
     dict_of cfg' "multi_value_column_is_in" = <["Disagree" := ["o"]]> (<["Agree" := ["o"]]> d))).
Proof.
  intros cfg cfg'.
  assert (E : (inject_config cfg ["o"] ["v"]).2 = Ok cfg') by (vm_compute; reflexivity).
  split; [exact E|]. exact (inject_config_keeps cfg cfg' ["o"] ["v"] E).
Defined.

(** *** The ORCIDs of a group *)

Lemma parse_ids_not_empty (x o : string) : o ∈ parse_ids x -> o <> EmptyString.
Proof.
  unfold parse_ids. intros H. apply elem_of_filter_bool in H as [_ H].
  intros ->. discriminate H.
Qed.

(** The ORCIDs whose documents are checked for a group (lines 370-372) are
    distinct, none is "NA" or empty, and they are exactly the tokens of the
    group rows' parsed Agree and Disagree cells. *)
Theorem group_orcids_distinct (f : frame) (tc : list (Z * list string)) :
  NoDup (group_orcids f tc) /\
  (forall o, o ∈ group_orcids f tc -> o <> "NA" /\ o <> EmptyString) /\
  (forall o, o ∈ group_orcids f tc <->
     exists i row, (i, row) ∈ tc /\ (o ∈ agree f row \/ o ∈ disagree f row)).
Proof.
  split; [|split].
  - unfold group_orcids. apply NoDup_ListNoDup, List.NoDup_filter, NoDup_ListNoDup, NoDup_uniq.
  - intros o Ho. apply elem_of_group_orcids in Ho as [i [row [_ [Ho|Ho]]]]; unfold agree, disagree in Ho;
      split; [eapply parse_ids_not_NA| eapply parse_ids_not_empty| eapply parse_ids_not_NA|
              eapply parse_ids_not_empty]; exact Ho.
  - intros o. apply elem_of_group_orcids.
Qed.
